(** * The FOB contest bot: a shallow embedding of [bot.py]

    The development follows the layout of the source file:
    - [PyStr]: the Python string operations used by [normalize_system_name];
    - the allow-list of systems;
    - the SQLite store (settings, contest_entries, contests) and the helper
      functions that read and write it;
    - the command handlers and the countdown loop;
    - the properties of the contest workflow. *)

From Stdlib Require Import ZArith NArith List Bool Lia.
From Stdlib Require Import Ascii String.
From Stdlib Require DecimalString DecimalZ.
From stdpp Require Import base option list gmap strings sorting.

Local Open Scope Z_scope.

(** ** Python strings *)

(** A Python [str] is a sequence of Unicode code points. *)
Module PyStr.

Abbreviation pystr := (list N).

(** A literal of the source, given by its ASCII text. *)
Definition lit (s : string) : pystr :=
  map N_of_ascii (list_ascii_of_string s).

(** [str.isspace] on one code point: the code points CPython classifies as
    whitespace ([_PyUnicode_IsWhitespace]). *)
Definition is_space (c : N) : bool :=
  ((9 <=? c) && (c <=? 13) || (28 <=? c) && (c <=? 32)
   || (c =? 133) || (c =? 160) || (c =? 5760)
   || (8192 <=? c) && (c <=? 8202)
   || (c =? 8232) || (c =? 8233) || (c =? 8239) || (c =? 8287)
   || (c =? 12288))%N.

(** [str.lstrip()], [str.rstrip()], [str.strip()] without argument. *)
Fixpoint lstrip (s : pystr) : pystr :=
  match s with
  | c :: s' => if is_space c then lstrip s' else s
  | [] => []
  end.

Definition rstrip (s : pystr) : pystr := rev (lstrip (rev s)).

Definition strip (s : pystr) : pystr := rstrip (lstrip s).

(** [str.split()] without argument: the maximal runs of non-whitespace. *)
Fixpoint split (s : pystr) : list pystr :=
  match s with
  | [] => []
  | c :: s' =>
      if is_space c then split s'
      else match s' with
           | [] => [[c]]
           | d :: _ =>
               if is_space d then [c] :: split s'
               else match split s' with
                    | w :: ws => (c :: w) :: ws
                    | [] => [[c]]
                    end
           end
  end.

(** [sep.join(words)]. *)
Fixpoint join (sep : pystr) (ws : list pystr) : pystr :=
  match ws with
  | [] => []
  | [w] => w
  | w :: ws' => w ++ sep ++ join sep ws'
  end.

(** *** Case mapping

    [str.title()] is driven by the Unicode character database that CPython
    carries in [Objects/unicodetype_db.h].  The tables below are that data
    for Unicode 14.0.0 (CPython 3.11): the code points with the properties
    Cased and Case_Ignorable, and the full lower-case and title-case
    mappings. *)

Definition is_ascii (c : N) : bool := (c <? 128)%N.
Definition is_ascii_upper (c : N) : bool := ((65 <=? c) && (c <=? 90))%N.
Definition is_ascii_lower (c : N) : bool := ((97 <=? c) && (c <=? 122))%N.

(** A property is a list of ranges of code points, both ends included. *)
Definition in_ranges (ranges : list (N * N)) (c : N) : bool :=
  existsb (fun '(first, last) => (first <=? c) && (c <=? last))%N ranges.

(** A run [(first, last, step, image)] of a mapping: the code points
    [first], [first + step], ..., up to [last], map to [image],
    [image + step], ...; a code point in no run maps to itself. *)
Definition in_run (c : N) (run : N * N * N * N) : bool :=
  let '(first, last, step, _) := run in
  ((first <=? c) && (c <=? last) && ((c - first) mod step =? 0))%N.

Definition simple_mapping (runs : list (N * N * N * N)) (c : N) : N :=
  match find (in_run c) runs with
  | Some (first, _, _, image) => (image + (c - first))%N
  | None => c
  end.

(** The code points with the property Cased. *)
Definition cased_ranges : list (N * N) :=
  [
    (65, 90); (97, 122); (170, 170); (181, 181); (186, 186);
    (192, 214); (216, 246); (248, 442); (444, 447); (452, 659);
    (661, 696); (704, 705); (736, 740); (837, 837); (880, 883);
    (886, 887); (890, 893); (895, 895); (902, 902); (904, 906);
    (908, 908); (910, 929); (931, 1013); (1015, 1153); (1162, 1327);
    (1329, 1366); (1376, 1416); (4256, 4293); (4295, 4295); (4301, 4301);
    (4304, 4346); (4349, 4351); (5024, 5109); (5112, 5117); (7296, 7304);
    (7312, 7354); (7357, 7359); (7424, 7615); (7680, 7957); (7960, 7965);
    (7968, 8005); (8008, 8013); (8016, 8023); (8025, 8025); (8027, 8027);
    (8029, 8029); (8031, 8061); (8064, 8116); (8118, 8124); (8126, 8126);
    (8130, 8132); (8134, 8140); (8144, 8147); (8150, 8155); (8160, 8172);
    (8178, 8180); (8182, 8188); (8305, 8305); (8319, 8319); (8336, 8348);
    (8450, 8450); (8455, 8455); (8458, 8467); (8469, 8469); (8473, 8477);
    (8484, 8484); (8486, 8486); (8488, 8488); (8490, 8493); (8495, 8500);
    (8505, 8505); (8508, 8511); (8517, 8521); (8526, 8526); (8544, 8575);
    (8579, 8580); (9398, 9449); (11264, 11492); (11499, 11502); (11506, 11507);
    (11520, 11557); (11559, 11559); (11565, 11565); (42560, 42605); (42624, 42653);
    (42786, 42887); (42891, 42894); (42896, 42954); (42960, 42961); (42963, 42963);
    (42965, 42969); (42997, 42998); (43000, 43002); (43824, 43866); (43868, 43880);
    (43888, 43967); (64256, 64262); (64275, 64279); (65313, 65338); (65345, 65370);
    (66560, 66639); (66736, 66771); (66776, 66811); (66928, 66938); (66940, 66954);
    (66956, 66962); (66964, 66965); (66967, 66977); (66979, 66993); (66995, 67001);
    (67003, 67004); (67456, 67456); (67459, 67461); (67463, 67504); (67506, 67514);
    (68736, 68786); (68800, 68850); (71840, 71903); (93760, 93823); (119808, 119892);
    (119894, 119964); (119966, 119967); (119970, 119970); (119973, 119974); (119977, 119980);
    (119982, 119993); (119995, 119995); (119997, 120003); (120005, 120069); (120071, 120074);
    (120077, 120084); (120086, 120092); (120094, 120121); (120123, 120126); (120128, 120132);
    (120134, 120134); (120138, 120144); (120146, 120485); (120488, 120512); (120514, 120538);
    (120540, 120570); (120572, 120596); (120598, 120628); (120630, 120654); (120656, 120686);
    (120688, 120712); (120714, 120744); (120746, 120770); (120772, 120779); (122624, 122633);
    (122635, 122654); (125184, 125251); (127280, 127305); (127312, 127337); (127344, 127369)
  ]%N.

(** The code points with the property Case_Ignorable. *)
Definition case_ignorable_ranges : list (N * N) :=
  [
    (39, 39); (46, 46); (58, 58); (94, 94); (96, 96);
    (168, 168); (173, 173); (175, 175); (180, 180); (183, 184);
    (688, 879); (884, 885); (890, 890); (900, 901); (903, 903);
    (1155, 1161); (1369, 1369); (1375, 1375); (1425, 1469); (1471, 1471);
    (1473, 1474); (1476, 1477); (1479, 1479); (1524, 1524); (1536, 1541);
    (1552, 1562); (1564, 1564); (1600, 1600); (1611, 1631); (1648, 1648);
    (1750, 1757); (1759, 1768); (1770, 1773); (1807, 1807); (1809, 1809);
    (1840, 1866); (1958, 1968); (2027, 2037); (2042, 2042); (2045, 2045);
    (2070, 2093); (2137, 2139); (2184, 2184); (2192, 2193); (2200, 2207);
    (2249, 2306); (2362, 2362); (2364, 2364); (2369, 2376); (2381, 2381);
    (2385, 2391); (2402, 2403); (2417, 2417); (2433, 2433); (2492, 2492);
    (2497, 2500); (2509, 2509); (2530, 2531); (2558, 2558); (2561, 2562);
    (2620, 2620); (2625, 2626); (2631, 2632); (2635, 2637); (2641, 2641);
    (2672, 2673); (2677, 2677); (2689, 2690); (2748, 2748); (2753, 2757);
    (2759, 2760); (2765, 2765); (2786, 2787); (2810, 2815); (2817, 2817);
    (2876, 2876); (2879, 2879); (2881, 2884); (2893, 2893); (2901, 2902);
    (2914, 2915); (2946, 2946); (3008, 3008); (3021, 3021); (3072, 3072);
    (3076, 3076); (3132, 3132); (3134, 3136); (3142, 3144); (3146, 3149);
    (3157, 3158); (3170, 3171); (3201, 3201); (3260, 3260); (3263, 3263);
    (3270, 3270); (3276, 3277); (3298, 3299); (3328, 3329); (3387, 3388);
    (3393, 3396); (3405, 3405); (3426, 3427); (3457, 3457); (3530, 3530);
    (3538, 3540); (3542, 3542); (3633, 3633); (3636, 3642); (3654, 3662);
    (3761, 3761); (3764, 3772); (3782, 3782); (3784, 3789); (3864, 3865);
    (3893, 3893); (3895, 3895); (3897, 3897); (3953, 3966); (3968, 3972);
    (3974, 3975); (3981, 3991); (3993, 4028); (4038, 4038); (4141, 4144);
    (4146, 4151); (4153, 4154); (4157, 4158); (4184, 4185); (4190, 4192);
    (4209, 4212); (4226, 4226); (4229, 4230); (4237, 4237); (4253, 4253);
    (4348, 4348); (4957, 4959); (5906, 5908); (5938, 5939); (5970, 5971);
    (6002, 6003); (6068, 6069); (6071, 6077); (6086, 6086); (6089, 6099);
    (6103, 6103); (6109, 6109); (6155, 6159); (6211, 6211); (6277, 6278);
    (6313, 6313); (6432, 6434); (6439, 6440); (6450, 6450); (6457, 6459);
    (6679, 6680); (6683, 6683); (6742, 6742); (6744, 6750); (6752, 6752);
    (6754, 6754); (6757, 6764); (6771, 6780); (6783, 6783); (6823, 6823);
    (6832, 6862); (6912, 6915); (6964, 6964); (6966, 6970); (6972, 6972);
    (6978, 6978); (7019, 7027); (7040, 7041); (7074, 7077); (7080, 7081);
    (7083, 7085); (7142, 7142); (7144, 7145); (7149, 7149); (7151, 7153);
    (7212, 7219); (7222, 7223); (7288, 7293); (7376, 7378); (7380, 7392);
    (7394, 7400); (7405, 7405); (7412, 7412); (7416, 7417); (7468, 7530);
    (7544, 7544); (7579, 7679); (8125, 8125); (8127, 8129); (8141, 8143);
    (8157, 8159); (8173, 8175); (8189, 8190); (8203, 8207); (8216, 8217);
    (8228, 8228); (8231, 8231); (8234, 8238); (8288, 8292); (8294, 8303);
    (8305, 8305); (8319, 8319); (8336, 8348); (8400, 8432); (11388, 11389);
    (11503, 11505); (11631, 11631); (11647, 11647); (11744, 11775); (11823, 11823);
    (12293, 12293); (12330, 12333); (12337, 12341); (12347, 12347); (12441, 12446);
    (12540, 12542); (40981, 40981); (42232, 42237); (42508, 42508); (42607, 42610);
    (42612, 42621); (42623, 42623); (42652, 42655); (42736, 42737); (42752, 42785);
    (42864, 42864); (42888, 42890); (42994, 42996); (43000, 43001); (43010, 43010);
    (43014, 43014); (43019, 43019); (43045, 43046); (43052, 43052); (43204, 43205);
    (43232, 43249); (43263, 43263); (43302, 43309); (43335, 43345); (43392, 43394);
    (43443, 43443); (43446, 43449); (43452, 43453); (43471, 43471); (43493, 43494);
    (43561, 43566); (43569, 43570); (43573, 43574); (43587, 43587); (43596, 43596);
    (43632, 43632); (43644, 43644); (43696, 43696); (43698, 43700); (43703, 43704);
    (43710, 43711); (43713, 43713); (43741, 43741); (43756, 43757); (43763, 43764);
    (43766, 43766); (43867, 43871); (43881, 43883); (44005, 44005); (44008, 44008);
    (44013, 44013); (64286, 64286); (64434, 64450); (65024, 65039); (65043, 65043);
    (65056, 65071); (65106, 65106); (65109, 65109); (65279, 65279); (65287, 65287);
    (65294, 65294); (65306, 65306); (65342, 65342); (65344, 65344); (65392, 65392);
    (65438, 65439); (65507, 65507); (65529, 65531); (66045, 66045); (66272, 66272);
    (66422, 66426); (67456, 67461); (67463, 67504); (67506, 67514); (68097, 68099);
    (68101, 68102); (68108, 68111); (68152, 68154); (68159, 68159); (68325, 68326);
    (68900, 68903); (69291, 69292); (69446, 69456); (69506, 69509); (69633, 69633);
    (69688, 69702); (69744, 69744); (69747, 69748); (69759, 69761); (69811, 69814);
    (69817, 69818); (69821, 69821); (69826, 69826); (69837, 69837); (69888, 69890);
    (69927, 69931); (69933, 69940); (70003, 70003); (70016, 70017); (70070, 70078);
    (70089, 70092); (70095, 70095); (70191, 70193); (70196, 70196); (70198, 70199);
    (70206, 70206); (70367, 70367); (70371, 70378); (70400, 70401); (70459, 70460);
    (70464, 70464); (70502, 70508); (70512, 70516); (70712, 70719); (70722, 70724);
    (70726, 70726); (70750, 70750); (70835, 70840); (70842, 70842); (70847, 70848);
    (70850, 70851); (71090, 71093); (71100, 71101); (71103, 71104); (71132, 71133);
    (71219, 71226); (71229, 71229); (71231, 71232); (71339, 71339); (71341, 71341);
    (71344, 71349); (71351, 71351); (71453, 71455); (71458, 71461); (71463, 71467);
    (71727, 71735); (71737, 71738); (71995, 71996); (71998, 71998); (72003, 72003);
    (72148, 72151); (72154, 72155); (72160, 72160); (72193, 72202); (72243, 72248);
    (72251, 72254); (72263, 72263); (72273, 72278); (72281, 72283); (72330, 72342);
    (72344, 72345); (72752, 72758); (72760, 72765); (72767, 72767); (72850, 72871);
    (72874, 72880); (72882, 72883); (72885, 72886); (73009, 73014); (73018, 73018);
    (73020, 73021); (73023, 73029); (73031, 73031); (73104, 73105); (73109, 73109);
    (73111, 73111); (73459, 73460); (78896, 78904); (92912, 92916); (92976, 92982);
    (92992, 92995); (94031, 94031); (94095, 94111); (94176, 94177); (94179, 94180);
    (110576, 110579); (110581, 110587); (110589, 110590); (113821, 113822); (113824, 113827);
    (118528, 118573); (118576, 118598); (119143, 119145); (119155, 119170); (119173, 119179);
    (119210, 119213); (119362, 119364); (121344, 121398); (121403, 121452); (121461, 121461);
    (121476, 121476); (121499, 121503); (121505, 121519); (122880, 122886); (122888, 122904);
    (122907, 122913); (122915, 122916); (122918, 122922); (123184, 123197); (123566, 123566);
    (123628, 123631); (125136, 125142); (125252, 125259); (127995, 127999); (917505, 917505);
    (917536, 917631); (917760, 917999)
  ]%N.

(** The lower-case mappings to one code point. *)
Definition lower_runs : list (N * N * N * N) :=
  [
    (65, 90, 1, 97); (192, 214, 1, 224); (216, 222, 1, 248);
    (256, 302, 2, 257); (306, 310, 2, 307); (313, 327, 2, 314);
    (330, 374, 2, 331); (376, 376, 1, 255); (377, 381, 2, 378);
    (385, 385, 1, 595); (386, 388, 2, 387); (390, 390, 1, 596);
    (391, 391, 1, 392); (393, 394, 1, 598); (395, 395, 1, 396);
    (398, 398, 1, 477); (399, 399, 1, 601); (400, 400, 1, 603);
    (401, 401, 1, 402); (403, 403, 1, 608); (404, 404, 1, 611);
    (406, 406, 1, 617); (407, 407, 1, 616); (408, 408, 1, 409);
    (412, 412, 1, 623); (413, 413, 1, 626); (415, 415, 1, 629);
    (416, 420, 2, 417); (422, 422, 1, 640); (423, 423, 1, 424);
    (425, 425, 1, 643); (428, 428, 1, 429); (430, 430, 1, 648);
    (431, 431, 1, 432); (433, 434, 1, 650); (435, 437, 2, 436);
    (439, 439, 1, 658); (440, 440, 1, 441); (444, 444, 1, 445);
    (452, 452, 1, 454); (453, 453, 1, 454); (455, 455, 1, 457);
    (456, 456, 1, 457); (458, 458, 1, 460); (459, 475, 2, 460);
    (478, 494, 2, 479); (497, 497, 1, 499); (498, 500, 2, 499);
    (502, 502, 1, 405); (503, 503, 1, 447); (504, 542, 2, 505);
    (544, 544, 1, 414); (546, 562, 2, 547); (570, 570, 1, 11365);
    (571, 571, 1, 572); (573, 573, 1, 410); (574, 574, 1, 11366);
    (577, 577, 1, 578); (579, 579, 1, 384); (580, 580, 1, 649);
    (581, 581, 1, 652); (582, 590, 2, 583); (880, 882, 2, 881);
    (886, 886, 1, 887); (895, 895, 1, 1011); (902, 902, 1, 940);
    (904, 906, 1, 941); (908, 908, 1, 972); (910, 911, 1, 973);
    (913, 929, 1, 945); (931, 939, 1, 963); (975, 975, 1, 983);
    (984, 1006, 2, 985); (1012, 1012, 1, 952); (1015, 1015, 1, 1016);
    (1017, 1017, 1, 1010); (1018, 1018, 1, 1019); (1021, 1023, 1, 891);
    (1024, 1039, 1, 1104); (1040, 1071, 1, 1072); (1120, 1152, 2, 1121);
    (1162, 1214, 2, 1163); (1216, 1216, 1, 1231); (1217, 1229, 2, 1218);
    (1232, 1326, 2, 1233); (1329, 1366, 1, 1377); (4256, 4293, 1, 11520);
    (4295, 4295, 1, 11559); (4301, 4301, 1, 11565); (5024, 5103, 1, 43888);
    (5104, 5109, 1, 5112); (7312, 7354, 1, 4304); (7357, 7359, 1, 4349);
    (7680, 7828, 2, 7681); (7838, 7838, 1, 223); (7840, 7934, 2, 7841);
    (7944, 7951, 1, 7936); (7960, 7965, 1, 7952); (7976, 7983, 1, 7968);
    (7992, 7999, 1, 7984); (8008, 8013, 1, 8000); (8025, 8031, 2, 8017);
    (8040, 8047, 1, 8032); (8072, 8079, 1, 8064); (8088, 8095, 1, 8080);
    (8104, 8111, 1, 8096); (8120, 8121, 1, 8112); (8122, 8123, 1, 8048);
    (8124, 8124, 1, 8115); (8136, 8139, 1, 8050); (8140, 8140, 1, 8131);
    (8152, 8153, 1, 8144); (8154, 8155, 1, 8054); (8168, 8169, 1, 8160);
    (8170, 8171, 1, 8058); (8172, 8172, 1, 8165); (8184, 8185, 1, 8056);
    (8186, 8187, 1, 8060); (8188, 8188, 1, 8179); (8486, 8486, 1, 969);
    (8490, 8490, 1, 107); (8491, 8491, 1, 229); (8498, 8498, 1, 8526);
    (8544, 8559, 1, 8560); (8579, 8579, 1, 8580); (9398, 9423, 1, 9424);
    (11264, 11311, 1, 11312); (11360, 11360, 1, 11361); (11362, 11362, 1, 619);
    (11363, 11363, 1, 7549); (11364, 11364, 1, 637); (11367, 11371, 2, 11368);
    (11373, 11373, 1, 593); (11374, 11374, 1, 625); (11375, 11375, 1, 592);
    (11376, 11376, 1, 594); (11378, 11378, 1, 11379); (11381, 11381, 1, 11382);
    (11390, 11391, 1, 575); (11392, 11490, 2, 11393); (11499, 11501, 2, 11500);
    (11506, 11506, 1, 11507); (42560, 42604, 2, 42561); (42624, 42650, 2, 42625);
    (42786, 42798, 2, 42787); (42802, 42862, 2, 42803); (42873, 42875, 2, 42874);
    (42877, 42877, 1, 7545); (42878, 42886, 2, 42879); (42891, 42891, 1, 42892);
    (42893, 42893, 1, 613); (42896, 42898, 2, 42897); (42902, 42920, 2, 42903);
    (42922, 42922, 1, 614); (42923, 42923, 1, 604); (42924, 42924, 1, 609);
    (42925, 42925, 1, 620); (42926, 42926, 1, 618); (42928, 42928, 1, 670);
    (42929, 42929, 1, 647); (42930, 42930, 1, 669); (42931, 42931, 1, 43859);
    (42932, 42946, 2, 42933); (42948, 42948, 1, 42900); (42949, 42949, 1, 642);
    (42950, 42950, 1, 7566); (42951, 42953, 2, 42952); (42960, 42960, 1, 42961);
    (42966, 42968, 2, 42967); (42997, 42997, 1, 42998); (65313, 65338, 1, 65345);
    (66560, 66599, 1, 66600); (66736, 66771, 1, 66776); (66928, 66938, 1, 66967);
    (66940, 66954, 1, 66979); (66956, 66962, 1, 66995); (66964, 66965, 1, 67003);
    (68736, 68786, 1, 68800); (71840, 71871, 1, 71872); (93760, 93791, 1, 93792);
    (125184, 125217, 1, 125218)
  ]%N.

(** The title-case mappings to one code point. *)
Definition title_runs : list (N * N * N * N) :=
  [
    (97, 122, 1, 65); (181, 181, 1, 924); (224, 246, 1, 192);
    (248, 254, 1, 216); (255, 255, 1, 376); (257, 303, 2, 256);
    (305, 305, 1, 73); (307, 311, 2, 306); (314, 328, 2, 313);
    (331, 375, 2, 330); (378, 382, 2, 377); (383, 383, 1, 83);
    (384, 384, 1, 579); (387, 389, 2, 386); (392, 392, 1, 391);
    (396, 396, 1, 395); (402, 402, 1, 401); (405, 405, 1, 502);
    (409, 409, 1, 408); (410, 410, 1, 573); (414, 414, 1, 544);
    (417, 421, 2, 416); (424, 424, 1, 423); (429, 429, 1, 428);
    (432, 432, 1, 431); (436, 438, 2, 435); (441, 441, 1, 440);
    (445, 445, 1, 444); (447, 447, 1, 503); (452, 452, 1, 453);
    (454, 454, 1, 453); (455, 455, 1, 456); (457, 457, 1, 456);
    (458, 458, 1, 459); (460, 476, 2, 459); (477, 477, 1, 398);
    (479, 495, 2, 478); (497, 497, 1, 498); (499, 501, 2, 498);
    (505, 543, 2, 504); (547, 563, 2, 546); (572, 572, 1, 571);
    (575, 576, 1, 11390); (578, 578, 1, 577); (583, 591, 2, 582);
    (592, 592, 1, 11375); (593, 593, 1, 11373); (594, 594, 1, 11376);
    (595, 595, 1, 385); (596, 596, 1, 390); (598, 599, 1, 393);
    (601, 601, 1, 399); (603, 603, 1, 400); (604, 604, 1, 42923);
    (608, 608, 1, 403); (609, 609, 1, 42924); (611, 611, 1, 404);
    (613, 613, 1, 42893); (614, 614, 1, 42922); (616, 616, 1, 407);
    (617, 617, 1, 406); (618, 618, 1, 42926); (619, 619, 1, 11362);
    (620, 620, 1, 42925); (623, 623, 1, 412); (625, 625, 1, 11374);
    (626, 626, 1, 413); (629, 629, 1, 415); (637, 637, 1, 11364);
    (640, 640, 1, 422); (642, 642, 1, 42949); (643, 643, 1, 425);
    (647, 647, 1, 42929); (648, 648, 1, 430); (649, 649, 1, 580);
    (650, 651, 1, 433); (652, 652, 1, 581); (658, 658, 1, 439);
    (669, 669, 1, 42930); (670, 670, 1, 42928); (837, 837, 1, 921);
    (881, 883, 2, 880); (887, 887, 1, 886); (891, 893, 1, 1021);
    (940, 940, 1, 902); (941, 943, 1, 904); (945, 961, 1, 913);
    (962, 962, 1, 931); (963, 971, 1, 931); (972, 972, 1, 908);
    (973, 974, 1, 910); (976, 976, 1, 914); (977, 977, 1, 920);
    (981, 981, 1, 934); (982, 982, 1, 928); (983, 983, 1, 975);
    (985, 1007, 2, 984); (1008, 1008, 1, 922); (1009, 1009, 1, 929);
    (1010, 1010, 1, 1017); (1011, 1011, 1, 895); (1013, 1013, 1, 917);
    (1016, 1016, 1, 1015); (1019, 1019, 1, 1018); (1072, 1103, 1, 1040);
    (1104, 1119, 1, 1024); (1121, 1153, 2, 1120); (1163, 1215, 2, 1162);
    (1218, 1230, 2, 1217); (1231, 1231, 1, 1216); (1233, 1327, 2, 1232);
    (1377, 1414, 1, 1329); (5112, 5117, 1, 5104); (7296, 7296, 1, 1042);
    (7297, 7297, 1, 1044); (7298, 7298, 1, 1054); (7299, 7300, 1, 1057);
    (7301, 7301, 1, 1058); (7302, 7302, 1, 1066); (7303, 7303, 1, 1122);
    (7304, 7304, 1, 42570); (7545, 7545, 1, 42877); (7549, 7549, 1, 11363);
    (7566, 7566, 1, 42950); (7681, 7829, 2, 7680); (7835, 7835, 1, 7776);
    (7841, 7935, 2, 7840); (7936, 7943, 1, 7944); (7952, 7957, 1, 7960);
    (7968, 7975, 1, 7976); (7984, 7991, 1, 7992); (8000, 8005, 1, 8008);
    (8017, 8023, 2, 8025); (8032, 8039, 1, 8040); (8048, 8049, 1, 8122);
    (8050, 8053, 1, 8136); (8054, 8055, 1, 8154); (8056, 8057, 1, 8184);
    (8058, 8059, 1, 8170); (8060, 8061, 1, 8186); (8064, 8071, 1, 8072);
    (8080, 8087, 1, 8088); (8096, 8103, 1, 8104); (8112, 8113, 1, 8120);
    (8115, 8115, 1, 8124); (8126, 8126, 1, 921); (8131, 8131, 1, 8140);
    (8144, 8145, 1, 8152); (8160, 8161, 1, 8168); (8165, 8165, 1, 8172);
    (8179, 8179, 1, 8188); (8526, 8526, 1, 8498); (8560, 8575, 1, 8544);
    (8580, 8580, 1, 8579); (9424, 9449, 1, 9398); (11312, 11359, 1, 11264);
    (11361, 11361, 1, 11360); (11365, 11365, 1, 570); (11366, 11366, 1, 574);
    (11368, 11372, 2, 11367); (11379, 11379, 1, 11378); (11382, 11382, 1, 11381);
    (11393, 11491, 2, 11392); (11500, 11502, 2, 11499); (11507, 11507, 1, 11506);
    (11520, 11557, 1, 4256); (11559, 11559, 1, 4295); (11565, 11565, 1, 4301);
    (42561, 42605, 2, 42560); (42625, 42651, 2, 42624); (42787, 42799, 2, 42786);
    (42803, 42863, 2, 42802); (42874, 42876, 2, 42873); (42879, 42887, 2, 42878);
    (42892, 42892, 1, 42891); (42897, 42899, 2, 42896); (42900, 42900, 1, 42948);
    (42903, 42921, 2, 42902); (42933, 42947, 2, 42932); (42952, 42954, 2, 42951);
    (42961, 42961, 1, 42960); (42967, 42969, 2, 42966); (42998, 42998, 1, 42997);
    (43859, 43859, 1, 42931); (43888, 43967, 1, 5024); (65345, 65370, 1, 65313);
    (66600, 66639, 1, 66560); (66776, 66811, 1, 66736); (66967, 66977, 1, 66928);
    (66979, 66993, 1, 66940); (66995, 67001, 1, 66956); (67003, 67004, 1, 66964);
    (68800, 68850, 1, 68736); (71872, 71903, 1, 71840); (93792, 93823, 1, 93760);
    (125218, 125251, 1, 125184)
  ]%N.

(** The title-case mappings to more than one code point. *)
Definition title_special : list (N * pystr) :=
  [
    (223, [83; 115]); (329, [700; 78]); (496, [74; 780]);
    (912, [921; 776; 769]); (944, [933; 776; 769]); (1415, [1333; 1410]);
    (7830, [72; 817]); (7831, [84; 776]); (7832, [87; 778]);
    (7833, [89; 778]); (7834, [65; 702]); (8016, [933; 787]);
    (8018, [933; 787; 768]); (8020, [933; 787; 769]); (8022, [933; 787; 834]);
    (8114, [8122; 837]); (8116, [902; 837]); (8118, [913; 834]);
    (8119, [913; 834; 837]); (8130, [8138; 837]); (8132, [905; 837]);
    (8134, [919; 834]); (8135, [919; 834; 837]); (8146, [921; 776; 768]);
    (8147, [921; 776; 769]); (8150, [921; 834]); (8151, [921; 776; 834]);
    (8162, [933; 776; 768]); (8163, [933; 776; 769]); (8164, [929; 787]);
    (8166, [933; 834]); (8167, [933; 776; 834]); (8178, [8186; 837]);
    (8180, [911; 837]); (8182, [937; 834]); (8183, [937; 834; 837]);
    (64256, [70; 102]); (64257, [70; 105]); (64258, [70; 108]);
    (64259, [70; 102; 105]); (64260, [70; 102; 108]); (64261, [83; 116]);
    (64262, [83; 116]); (64275, [1348; 1398]); (64276, [1348; 1381]);
    (64277, [1348; 1387]); (64278, [1358; 1398]); (64279, [1348; 1389])
  ]%N.

(** [_PyUnicode_IsCased], [_PyUnicode_IsCaseIgnorable]. *)
Definition is_cased (c : N) : bool := in_ranges cased_ranges c.
Definition is_case_ignorable (c : N) : bool := in_ranges case_ignorable_ranges c.

(** [_PyUnicode_ToLowerFull]: U+0130 is the one code point that lowers to
    more than one code point, U+0069 U+0307. *)
Definition to_lower_full (c : N) : pystr :=
  if (c =? 304)%N then [105%N; 775%N]
  else [simple_mapping lower_runs c].

(** [_PyUnicode_ToTitleFull]. *)
Definition to_title_full (c : N) : pystr :=
  match find (fun '(special, _) => (special =? c)%N) title_special with
  | Some (_, mapped) => mapped
  | None => [simple_mapping title_runs c]
  end.

(** The first code point of [s] that is not case-ignorable is cased:
    the scan of [handle_capital_sigma], in either direction. *)
Fixpoint cased_follows (s : pystr) : bool :=
  match s with
  | [] => false
  | c :: s' => if is_case_ignorable c then cased_follows s' else is_cased c
  end.

(** [handle_capital_sigma]: U+03A3 is in the Final_Sigma context when a
    cased code point precedes it and none follows it, case-ignorable code
    points set aside.  [before] holds the code points before the sigma,
    the nearest first, [after] those after it. *)
Definition handle_capital_sigma (before after : pystr) : N :=
  if cased_follows before && negb (cased_follows after) then 962%N else 963%N.

(** [lower_ucs4]. *)
Definition lower_ucs4 (before after : pystr) (c : N) : pystr :=
  if (c =? 931)%N then [handle_capital_sigma before after]
  else to_lower_full c.

(** [str.title()] ([do_title] of CPython): a code point is title-cased when
    the previous code point of the input is not cased, lower-cased
    otherwise.  [before] holds the code points of the input already
    passed, the nearest first. *)
Fixpoint do_title (before : pystr) (previous_is_cased : bool) (s : pystr) : pystr :=
  match s with
  | [] => []
  | c :: s' =>
      (if previous_is_cased then lower_ucs4 before s' c else to_title_full c)
        ++ do_title (c :: before) (is_cased c) s'
  end.

Definition title (s : pystr) : pystr := do_title [] false s.

Definition is_ascii_str (s : pystr) : bool := forallb is_ascii s.

End PyStr.

Import PyStr.

(** ** [normalize_system_name] *)

Definition normalize_system_name (name : pystr) : pystr :=
  let cleaned := join (lit " ") (split (strip name)) in
  title cleaned.

Example normalize_tama :
  normalize_system_name (lit "  tama ") = lit "Tama".
Proof. reflexivity. Qed.

Example normalize_old_man_star :
  normalize_system_name (lit " old   MAN" ++ [9%N] ++ lit "star ")
  = lit "Old Man Star".
Proof. reflexivity. Qed.

(** U+212A KELVIN SIGN lowers to "k", U+0131 LATIN SMALL LETTER DOTLESS I
    titles to "I". *)
Example normalize_kelvin_sign :
  normalize_system_name ([97; 8490]%N ++ lit "idagi") = lit "Akidagi".
Proof. vm_compute. reflexivity. Qed.

Example normalize_dotless_i :
  normalize_system_name (305%N :: lit "ges") = lit "Iges".
Proof. vm_compute. reflexivity. Qed.

(** U+FB01 LATIN SMALL LIGATURE FI and U+00DF LATIN SMALL LETTER SHARP S
    title to two code points. *)
Example normalize_ligatures :
  normalize_system_name (64257%N :: lit "sh  and " ++ [223; 97]%N)
  = lit "Fish And Ssa".
Proof. vm_compute. reflexivity. Qed.

(** U+03A3 GREEK CAPITAL LETTER SIGMA lowers to U+03C2 at the end of a word
    and to U+03C3 elsewhere. *)
Example normalize_final_sigma :
  normalize_system_name [927; 931; 916; 927; 931; 32; 931; 927; 931]%N
  = [927; 963; 948; 959; 962; 32; 931; 959; 962]%N.
Proof. vm_compute. reflexivity. Qed.


(** ** Allowed FOB systems *)

Definition ALLOWED_FOB_SYSTEMS_RAW : list pystr :=
  map lit
    [ "Aivonen"; "Akidagi"; "Aldranette"; "Alparena"; "Asakai"; "Athounon";
      "Aubenall"; "Brarel"; "Deven"; "Eha"; "Enaluri"; "Esesier"; "Evaulon";
      "Frarie"; "Harroule"; "Hevrice"; "Heydieles"; "Hykanima"; "Iges";
      "Immuri"; "Ikoskio"; "Intaki"; "Iralaja"; "Jovainnon"; "Kedama";
      "Kehjari"; "Kinakka"; "Luminaire"; "Mantenault"; "Martoh"; "Melmaniel";
      "Mercomesier"; "Murethand"; "Mushikegi"; "Nikkishina"; "Nisuwa";
      "Notoras"; "Ocix"; "Odamia"; "Oicx"; "Oinasiken"; "Okagaiken";
      "Old Man Star"; "Olletta"; "Ostingele"; "Oto"; "Prism"; "Pynekastoh";
      "Raihbaka"; "Renarelle"; "Reschard"; "Sarenemi"; "Sujarento"; "Tama";
      "Tannolen"; "Vaaralen"; "Vey"; "Vlillirier" ]%string.

(** Normalized once so lookups are consistent. *)
Definition ALLOWED_FOB_SYSTEMS : gset pystr :=
  list_to_set (map normalize_system_name ALLOWED_FOB_SYSTEMS_RAW).

Definition is_allowed_fob_system (name : pystr) : bool :=
  let normalized := normalize_system_name name in
  bool_decide (normalized ∈ ALLOWED_FOB_SYSTEMS).

(** ** The SQLite store *)

(** A row of [contest_entries]; PRIMARY KEY (contest_id, user_id) and
    UNIQUE (contest_id, system_name). *)
Record Entry := {
  e_contest_id : Z;
  e_user_id : Z;
  e_system_name : pystr;
  e_entered_at : pystr
}.

(** A row of [contests]; [id] is INTEGER PRIMARY KEY AUTOINCREMENT. *)
Record Contest := {
  c_id : Z;
  c_opened_at : pystr;
  c_winner_user_id : option Z;
  c_winner_system : option pystr
}.

(** The database file: the three tables and the AUTOINCREMENT counter that
    SQLite keeps for [contests] (the largest id ever handed out). *)
Record DB := {
  settings : gmap string pystr;
  contest_entries : list Entry;
  contests : list Contest;
  contests_seq : Z
}.

Definition with_settings (f : gmap string pystr -> gmap string pystr) (d : DB) : DB :=
  {| settings := f (settings d); contest_entries := contest_entries d;
     contests := contests d; contests_seq := contests_seq d |}.

Definition with_entries (f : list Entry -> list Entry) (d : DB) : DB :=
  {| settings := settings d; contest_entries := f (contest_entries d);
     contests := contests d; contests_seq := contests_seq d |}.

Definition with_contests (f : list Contest -> list Contest) (d : DB) : DB :=
  {| settings := settings d; contest_entries := contest_entries d;
     contests := f (contests d); contests_seq := contests_seq d |}.

(** *** Statements *)

(** [INSERT INTO settings(key, value) VALUES(?, ?)
     ON CONFLICT(key) DO UPDATE SET value = excluded.value] *)
Definition upsert_setting (key : string) (value : pystr) (d : DB) : DB :=
  with_settings (insert key value) d.

(** [DELETE FROM settings WHERE key = ?] *)
Definition delete_setting (key : string) (d : DB) : DB :=
  with_settings (delete key) d.

(** The id AUTOINCREMENT gives to the next row: one more than the largest
    id that ever existed in the table. *)
Definition next_contest_id (d : DB) : Z :=
  1 + fold_right Z.max (contests_seq d) (map c_id (contests d)).

(** [INSERT INTO contests(opened_at) VALUES(?)], with [cur.lastrowid]. *)
Definition insert_contest (opened_at : pystr) (d : DB) : Z * DB :=
  let new_id := next_contest_id d in
  (new_id,
   {| settings := settings d; contest_entries := contest_entries d;
      contests := contests d ++
        [{| c_id := new_id; c_opened_at := opened_at;
            c_winner_user_id := None; c_winner_system := None |}];
      contests_seq := new_id |}).

(** [UPDATE contests SET winner_user_id = ?, winner_system = ? WHERE id = ?] *)
Definition update_contest_winner
    (winner_user_id : Z) (winner_system : pystr) (id : Z) (d : DB) : DB :=
  with_contests
    (map (fun c =>
            if c_id c =? id
            then {| c_id := c_id c; c_opened_at := c_opened_at c;
                    c_winner_user_id := Some winner_user_id;
                    c_winner_system := Some winner_system |}
            else c)) d.

Definition same_user (contest_id user_id : Z) (e : Entry) : bool :=
  (e_contest_id e =? contest_id) && (e_user_id e =? user_id).

Definition same_system (contest_id : Z) (system_name : pystr) (e : Entry) : bool :=
  (e_contest_id e =? contest_id) && bool_decide (e_system_name e = system_name).

(** The new row would break UNIQUE (contest_id, system_name): another
    user's row of the contest holds the system. *)
Definition unique_violation (r : Entry) (es : list Entry) : bool :=
  existsb (fun e => same_system (e_contest_id r) (e_system_name r) e
                    && negb (e_user_id e =? e_user_id r)) es.

(** [INSERT INTO contest_entries(...) VALUES(?, ?, ?, ?)
     ON CONFLICT(contest_id, user_id)
     DO UPDATE SET system_name = excluded.system_name,
                   entered_at = excluded.entered_at];
    [None] when the statement fails with [sqlite3.IntegrityError]. *)
Definition upsert_entry (r : Entry) (es : list Entry) : option (list Entry) :=
  if unique_violation r es then None
  else if existsb (same_user (e_contest_id r) (e_user_id r)) es
       then Some (map (fun e => if same_user (e_contest_id r) (e_user_id r) e
                                then r else e) es)
       else Some (es ++ [r]).

(** ** The Discord side and the Python runtime *)

(** The content of a message the countdown loop posts. *)
Inductive Embed :=
| DeadlineReachedEmbed
| CountdownEmbed (contest_id days hours minutes discord_timestamp : Z).

(** The channels the bot can resolve ([bot.get_channel]) with their messages
    by id, and the id Discord gives to the next message. *)
Record World := {
  channels : gmap Z (gmap Z Embed);
  next_message_id : Z
}.

Inductive exn :=
| ValueError
| IndexError
| IntegrityError   (* sqlite3.Error *)
| NotFound.        (* discord.NotFound, a discord.HTTPException *)

Definition is_sqlite_error (e : exn) : bool :=
  match e with IntegrityError => true | _ => false end.

Definition is_http_exception (e : exn) : bool :=
  match e with NotFound => true | _ => false end.

Inductive LogRecord :=
| LogException (where_ : string) (e : exn)
| LogWarning (where_ : string) (e : exn).

Record State := {
  db : DB;
  world : World;
  log : list LogRecord
}.

(** What the standard library of Python supplies: [int] on a string,
    [datetime.isoformat], [datetime.fromisoformat],
    [datetime.strptime(_, "%Y-%m-%d %H:%M")] read as UTC, [json.dumps] of a
    list of strings and [json.loads] (the items of a JSON list, [None] for
    any other text).  A [datetime] is its number of microseconds since the
    epoch; [None] stands for [ValueError]. *)
Class Runtime := {
  CHANNEL_ID : Z;
  py_int : pystr -> option Z;
  isoformat : Z -> pystr;
  fromisoformat : pystr -> option Z;
  strptime : pystr -> option Z;
  json_dumps : list pystr -> pystr;
  json_loads_list : pystr -> option (list pystr)
}.

(** [str] on an integer. *)
Definition py_str (z : Z) : pystr :=
  lit (DecimalString.NilZero.string_of_int (Z.to_int z)).

(** *** Handlers run in a state-and-exception monad *)

Inductive Res (A : Type) :=
| Ok (a : A)
| Raise (e : exn).
Arguments Ok {A} a.
Arguments Raise {A} e.

Definition M (A : Type) : Type := State -> Res A * State.

#[global] Instance M_ret : MRet M := fun A a s => (Ok a, s).

#[global] Instance M_bind : MBind M := fun A B f m s =>
  match m s with
  | (Ok a, s') => f a s'
  | (Raise e, s') => (Raise e, s')
  end.

#[global] Instance M_fmap : FMap M := fun A B f m s =>
  match m s with
  | (Ok a, s') => (Ok (f a), s')
  | (Raise e, s') => (Raise e, s')
  end.

Definition raise {A} (e : exn) : M A := fun s => (Raise e, s).

(** [try: m  except <catches>: h]. *)
Definition try_except {A} (m : M A) (catches : exn -> bool) (h : exn -> M A) : M A :=
  fun s =>
    match m s with
    | (Raise e, s') => if catches e then h e s' else (Raise e, s')
    | r => r
    end.

Definition get_db : M DB := fun s => (Ok (db s), s).

Definition update_db (f : DB -> DB) (s : State) : State :=
  {| db := f (db s); world := world s; log := log s |}.

Definition modify_db (f : DB -> DB) : M unit := fun s => (Ok tt, update_db f s).

Definition get_world : M World := fun s => (Ok (world s), s).

Definition put_world (w : World) : M unit := fun s =>
  (Ok tt, {| db := db s; world := w; log := log s |}).

Definition add_log (r : LogRecord) (s : State) : State :=
  {| db := db s; world := world s; log := log s ++ [r] |}.

Definition log_record (r : LogRecord) : M unit := fun s => (Ok tt, add_log r s).

(** The decorator of the DB helpers: log SQLite errors and re-raise. *)
Definition with_db {A} (fn_name : string) (fn : M A) : M A :=
  try_except fn is_sqlite_error
    (fun e => log_record (LogException fn_name e);; raise e).

(** A connection whose statements are committed together: an exception
    before [conn.commit()] leaves the database as it was. *)
Definition transaction {A} (body : M A) : M A := fun s =>
  match body s with
  | (Raise e, s') =>
      (Raise e, {| db := db s; world := world s'; log := log s' |})
  | r => r
  end.

(** ** What a handler answers

    One constructor per message a handler sends; the public announcement of
    [endcontest] travels with the answer that reports it. *)
Inductive Response :=
(* everyone *)
| StaticText
| NoGuessYet
| YourGuess (system : pystr)
| PrizesNotSet
| PrizesListed (prizes : list pystr)
| ContestStatus (contest_id : Z) (opened_at : option pystr)
    (contest_open : bool) (deadline : option Z) (total_entries : Z)
    (fob_system : option pystr) (winner_picked : bool)
    (winner : option Z * option pystr)
| NoContestsRecorded
| ContestHistory (rows : list Contest)
| NoWinnersYet
| PastWinners (rows : list Contest)
(* /enter *)
| InvalidSystem
| ContestClosed
| DeadlinePassed (discord_timestamp : option Z)
| DuplicateUser (previous : pystr)
| SystemTaken (system_norm : pystr)
| EntryRecorded (system_norm : pystr)
(* admin commands *)
| PermissionDenied
| AlreadyHasWinner
| AlreadyClosed
| AlreadyOpen
| NoEntries
| ShowEndContestModal (contest_id channel_id : Z)
| EndedNoWinner (contest_id : Z) (fob_system : pystr)
| EndedWithWinner (contest_id : Z) (fob_system : pystr) (winner_user_id : Z)
    (prizes : list pystr)
| DatabaseError
| UnexpectedError (e : exn)
| Reopened
| ListClosed
| NoEntriesToList
| EntriesListed (rows : list (Z * pystr))
| ShowDeadlineModal (new_contest_id : Z) (opened_at : pystr) (channel_id : Z)
| NewContestFailed
| DeadlineMustBeFuture
| NewContestStarted (new_contest_id : Z) (opened_at : pystr)
    (discord_timestamp channel_id : Z)
| InvalidDeadlineFormat
| DeadlineSet (discord_timestamp : Z)
| DeadlineCleared
| ShowSetPrizesModal
| PrizeCountNotANumber
| PrizeCountOutOfRange
| PrizeEmpty (index count : Z)
| PrizesUpdated (prizes : list pystr)
| BackupCreated.

(** [ORDER BY user_id] on the rows of [listentries]. *)
Definition by_user_id (a b : Z * pystr) : Prop := a.1 <= b.1.

#[global] Instance by_user_id_dec a b : Decision (by_user_id a b).
Proof. unfold by_user_id. apply _. Defined.

(** [ORDER BY c.id DESC] on the rows of the history commands. *)
Definition by_id_desc (a b : Contest) : Prop := c_id b <= c_id a.

#[global] Instance by_id_desc_dec a b : Decision (by_id_desc a b).
Proof. unfold by_id_desc. apply _. Defined.

(** ** Helper functions of the bot *)

Section Bot.

Context `{RT : Runtime}.

Definition int (v : pystr) : M Z :=
  match py_int v with Some z => mret z | None => raise ValueError end.

Definition datetime_fromisoformat (v : pystr) : M Z :=
  match fromisoformat v with Some t => mret t | None => raise ValueError end.

Definition datetime_strptime (v : pystr) : M Z :=
  match strptime v with Some t => mret t | None => raise ValueError end.

(** [int(deadline_dt.timestamp())]: whole seconds, truncated. *)
Definition timestamp (t : Z) : Z := Z.quot t 1000000.

(** Truthiness of an [int | None] and of a [str | None]. *)
Definition truthy_int (o : option Z) : option Z :=
  match o with
  | Some z => if z =? 0 then None else Some z
  | None => None
  end.

Definition truthy_str (o : option pystr) : option pystr :=
  match o with
  | Some (c :: s) => Some (c :: s)
  | _ => None
  end.

(** [SELECT value FROM settings WHERE key = ?] with [fetchone()]. *)
Definition select_setting (key : string) : M (option pystr) :=
  d ← get_db; mret (settings d !! key).

(** [INSERT INTO settings(key, value) VALUES(?, ?)]: the key is the primary
    key of the table. *)
Definition insert_setting (key : string) (value : pystr) : M unit :=
  d ← get_db;
  match settings d !! key with
  | Some _ => raise IntegrityError
  | None => modify_db (upsert_setting key value)
  end.

(** [INSERT INTO contests(opened_at) VALUES(?)] on the open connection,
    with [cur.lastrowid]. *)
Definition exec_insert_contest (opened_at : pystr) : M Z :=
  d ← get_db;
  let '(new_id, d') := insert_contest opened_at d in
  modify_db (fun _ => d');;
  mret new_id.

Definition WINNER_PICKED_KEY : string := "winner_picked".

Definition init_db (now : Z) : M unit :=
  with_db "init_db" (transaction (
    row ← select_setting "current_contest_id";
    match row with
    | None =>
        let opened_at := isoformat now in
        contest_id ← exec_insert_contest opened_at;
        insert_setting "current_contest_id" (py_str contest_id);;
        insert_setting "contest_open" (lit "1");;
        insert_setting WINNER_PICKED_KEY (lit "0")
    | Some _ => mret tt
    end)).

Definition get_current_contest_id : M Z :=
  with_db "get_current_contest_id" (
    row ← select_setting "current_contest_id";
    match row with
    | None => mret 1
    | Some v => int v
    end).

Definition get_contest_open_date (contest_id : Z) : M (option pystr) :=
  with_db "get_contest_open_date" (
    d ← get_db;
    mret (c_opened_at <$> find (fun c => c_id c =? contest_id) (contests d))).

Definition get_prizes_text : M (option pystr) :=
  with_db "get_prizes_text" (select_setting "prizes_text").

Definition set_prizes_text (text : pystr) : M unit :=
  with_db "set_prizes_text" (modify_db (upsert_setting "prizes_text" text)).

Definition get_prizes_list : M (list pystr) :=
  raw ← get_prizes_text;
  match truthy_str raw with
  | None => mret []
  | Some raw =>
      match json_loads_list raw with
      | Some items => mret items
      | None => mret [raw]
      end
  end.

Definition set_prizes_list (prizes : list pystr) : M unit :=
  set_prizes_text (json_dumps prizes).

Definition get_user_entry (user_id : Z) : M (option pystr) :=
  with_db "get_user_entry" (
    contest_id ← get_current_contest_id;
    d ← get_db;
    mret (e_system_name <$> find (same_user contest_id user_id) (contest_entries d))).

Definition set_user_entry (now user_id : Z) (system_name : pystr) : M unit :=
  with_db "set_user_entry" (
    contest_id ← get_current_contest_id;
    let entered_at := isoformat now in
    d ← get_db;
    match upsert_entry {| e_contest_id := contest_id; e_user_id := user_id;
                          e_system_name := system_name;
                          e_entered_at := entered_at |} (contest_entries d) with
    | Some es => modify_db (with_entries (fun _ => es))
    | None => raise IntegrityError
    end).

Definition is_system_taken (system_name : pystr) : M bool :=
  with_db "is_system_taken" (
    contest_id ← get_current_contest_id;
    d ← get_db;
    mret (existsb (same_system contest_id system_name) (contest_entries d))).

Definition is_contest_open : M bool :=
  with_db "is_contest_open" (
    row ← select_setting "contest_open";
    match row with
    | None => mret true
    | Some v => mret (bool_decide (v = lit "1"))
    end).

Definition set_contest_open (open_flag : bool) : M unit :=
  with_db "set_contest_open" (
    modify_db (upsert_setting "contest_open" (if open_flag then lit "1" else lit "0"))).

Definition get_fob_system : M (option pystr) :=
  with_db "get_fob_system" (select_setting "fob_system").

Definition set_fob_system (system_name : pystr) : M unit :=
  with_db "set_fob_system" (modify_db (upsert_setting "fob_system" system_name)).

Definition is_winner_picked : M bool :=
  with_db "is_winner_picked" (
    row ← select_setting WINNER_PICKED_KEY;
    match row with
    | None => mret false
    | Some v => mret (bool_decide (v = lit "1"))
    end).

Definition set_winner_picked (picked : bool) : M unit :=
  with_db "set_winner_picked" (
    modify_db (upsert_setting WINNER_PICKED_KEY (if picked then lit "1" else lit "0"))).

Definition get_entry_deadline : M (option pystr) :=
  with_db "get_entry_deadline" (select_setting "entry_deadline").

Definition set_entry_deadline (deadline_iso : option pystr) : M unit :=
  with_db "set_entry_deadline" (
    match deadline_iso with
    | None => modify_db (delete_setting "entry_deadline")
    | Some v => modify_db (upsert_setting "entry_deadline" v)
    end).

Definition is_past_deadline (now : Z) : M bool :=
  with_db "is_past_deadline" (
    deadline ← get_entry_deadline;
    match deadline with
    | None => mret false
    | Some deadline =>
        deadline_dt ← datetime_fromisoformat deadline;
        mret (deadline_dt <=? now)
    end).

Definition get_countdown_message_id : M (option Z) :=
  with_db "get_countdown_message_id" (
    row ← select_setting "countdown_message_id";
    match row with
    | Some v => z ← int v; mret (Some z)
    | None => mret None
    end).

Definition set_countdown_message_id (message_id : option Z) : M unit :=
  with_db "set_countdown_message_id" (
    match message_id with
    | None => modify_db (delete_setting "countdown_message_id")
    | Some m => modify_db (upsert_setting "countdown_message_id" (py_str m))
    end).

Definition get_countdown_channel_id : M (option Z) :=
  with_db "get_countdown_channel_id" (
    row ← select_setting "countdown_channel_id";
    match row with
    | Some v => z ← int v; mret (Some z)
    | None => mret None
    end).

Definition set_countdown_channel_id (channel_id : Z) : M unit :=
  with_db "set_countdown_channel_id" (
    modify_db (upsert_setting "countdown_channel_id" (py_str channel_id))).

Definition get_total_entries_for_current_contest : M Z :=
  with_db "get_total_entries_for_current_contest" (
    contest_id ← get_current_contest_id;
    d ← get_db;
    mret (Z.of_nat (length (filter (fun e => e_contest_id e = contest_id)
                                   (contest_entries d))))).

Definition get_current_winner_info : M (option Z * option pystr) :=
  with_db "get_current_winner_info" (
    contest_id ← get_current_contest_id;
    d ← get_db;
    match find (fun c => c_id c =? contest_id) (contests d) with
    | None => mret (None, None)
    | Some row => mret (c_winner_user_id row, c_winner_system row)
    end).

(** *** Messages of a channel *)

Definition channel_messages (w : World) (channel_id : Z) : gmap Z Embed :=
  default ∅ (channels w !! channel_id).

(** [channel.fetch_message(message_id)] *)
Definition fetch_message (channel_id message_id : Z) : M Embed :=
  w ← get_world;
  match channel_messages w channel_id !! message_id with
  | Some e => mret e
  | None => raise NotFound
  end.

(** [message.edit(embed=embed)] *)
Definition edit_message (channel_id message_id : Z) (embed : Embed) : M unit :=
  w ← get_world;
  put_world {| channels := <[channel_id := <[message_id := embed]> (channel_messages w channel_id)]> (channels w);
               next_message_id := next_message_id w |}.

(** [message.delete()] *)
Definition delete_message (channel_id message_id : Z) : M unit :=
  w ← get_world;
  put_world {| channels := <[channel_id := delete message_id (channel_messages w channel_id)]> (channels w);
               next_message_id := next_message_id w |}.

(** [channel.send(embed=embed)], with the id of the new message. *)
Definition send_message (channel_id : Z) (embed : Embed) : M Z :=
  w ← get_world;
  let id := next_message_id w in
  put_world {| channels := <[channel_id := <[id := embed]> (channel_messages w channel_id)]> (channels w);
               next_message_id := id + 1 |};;
  mret id.

(** [random.choice(rows)], [seed] being the state of the generator:
    seeds are spread evenly over the positions of [rows]. *)
Definition random_choice {A} (seed : nat) (rows : list A) : M A :=
  match rows !! (seed mod length rows)%nat with
  | Some row => mret row
  | None => raise IndexError
  end.

(** ** The countdown loop *)

(** One run of [update_countdown] at time [now]. *)
Definition update_countdown (now : Z) : M unit :=
  try_except (
    deadline ← get_entry_deadline;
    match truthy_str deadline with
    | None => mret tt   (* no deadline set *)
    | Some deadline =>
        configured ← get_countdown_channel_id;
        let channel_id := default CHANNEL_ID (truthy_int configured) in
        message_id ← get_countdown_message_id;
        if channel_id =? 0 then mret tt   (* no channel configured *)
        else
          w ← get_world;
          match channels w !! channel_id with
          | None => mret tt
          | Some _ =>
              deadline_dt ← datetime_fromisoformat deadline;
              if deadline_dt <=? now then
                (* deadline passed, stop countdown *)
                match truthy_int message_id with
                | Some message_id =>
                    try_except (
                      fetch_message channel_id message_id;;
                      edit_message channel_id message_id DeadlineReachedEmbed;;
                      set_countdown_message_id None)
                    is_http_exception
                    (fun e => log_record (LogWarning "update_countdown" e))
                | None => mret tt
                end
              else
                let time_remaining := deadline_dt - now in
                let days := time_remaining / 86400000000 in
                let seconds := (time_remaining mod 86400000000) / 1000000 in
                let hours := seconds / 3600 in
                let remainder := seconds mod 3600 in
                let minutes := remainder / 60 in
                contest_id ← get_current_contest_id;
                let embed := CountdownEmbed contest_id days hours minutes
                               (timestamp deadline_dt) in
                match truthy_int message_id with
                | Some message_id =>
                    try_except (
                      fetch_message channel_id message_id;;
                      edit_message channel_id message_id embed)
                    (fun e => match e with NotFound => true | _ => false end)
                    (fun _ =>
                       (* message was deleted, create a new one *)
                       new_id ← send_message channel_id embed;
                       set_countdown_message_id (Some new_id))
                | None =>
                    new_id ← send_message channel_id embed;
                    set_countdown_message_id (Some new_id)
                end
          end
    end)
  (fun _ => true)
  (fun e => log_record (LogException "update_countdown" e)).

(** ** Commands *)

(** *** /enter *)

(** The last step of [enter], after all checks passed: store the entry and
    answer. *)
Definition enter_store (now user_id : Z) (system_norm : pystr) : M Response :=
  set_user_entry now user_id system_norm;;
  mret (EntryRecorded system_norm).

Definition enter (now user_id : Z) (system : pystr) : M Response :=
  let system_norm := normalize_system_name system in
  (* 0) system must be in allowed FOB list *)
  if negb (is_allowed_fob_system system_norm) then mret InvalidSystem
  else
    (* 1) contest must be open *)
    contest_open ← is_contest_open;
    if negb contest_open then mret ContestClosed
    else
      (* 2) check if past deadline *)
      past ← is_past_deadline now;
      if (past : bool) then
        deadline ← get_entry_deadline;
        match truthy_str deadline with
        | Some deadline =>
            deadline_dt ← datetime_fromisoformat deadline;
            mret (DeadlinePassed (Some (timestamp deadline_dt)))
        | None => mret (DeadlinePassed None)
        end
      else
        (* 3) this user already has an entry in this contest *)
        previous ← get_user_entry user_id;
        match previous with
        | Some previous => mret (DuplicateUser previous)
        | None =>
            (* 4) this system is already taken in this contest *)
            taken ← is_system_taken system_norm;
            if (taken : bool) then mret (SystemTaken system_norm)
            else
              (* 5) all checks passed *)
              enter_store now user_id system_norm
        end.

(** *** /endcontest *)

Definition EndContestModal_on_submit
    (contest_id channel_id : Z) (fob_system_input : pystr) (seed : nat) : M Response :=
  try_except (
    let system_norm := normalize_system_name fob_system_input in
    if negb (is_allowed_fob_system system_norm) then mret InvalidSystem
    else
      (* close the contest *)
      set_contest_open false;;
      (* set the FOB system *)
      set_fob_system system_norm;;
      (* find matching entries *)
      d ← get_db;
      let rows := map (fun e => (e_user_id e, e_system_name e))
                      (filter (fun e => same_system contest_id system_norm e = true)
                              (contest_entries d)) in
      match rows with
      | [] => mret (EndedNoWinner contest_id system_norm)
      | _ =>
          (* pick random winner from correct entries *)
          '(winner_user_id, _) ← random_choice seed rows;
          set_winner_picked true;;
          modify_db (update_contest_winner winner_user_id system_norm contest_id);;
          prizes_list ← get_prizes_list;
          mret (EndedWithWinner contest_id system_norm winner_user_id prizes_list)
      end)
  (fun _ => true)
  (fun e =>
     if is_sqlite_error e
     then log_record (LogException "Error ending contest" e);; mret DatabaseError
     else log_record (LogException "Unexpected error ending contest" e);;
          mret (UnexpectedError e)).

Definition endcontest (is_contest_admin : bool) (channel_id : Z) : M Response :=
  (* 1) permission check *)
  if negb is_contest_admin then mret PermissionDenied
  else
    (* 2) prevent ending a contest that already has a winner *)
    picked ← is_winner_picked;
    if (picked : bool) then mret AlreadyHasWinner
    else
      (* 3) make sure contest is currently open *)
      contest_open ← is_contest_open;
      if negb contest_open then mret AlreadyClosed
      else
        (* 4) make sure there is at least one entry *)
        contest_id ← get_current_contest_id;
        d ← get_db;
        let count := length (filter (fun e => e_contest_id e = contest_id)
                                    (contest_entries d)) in
        if Nat.eqb count 0 then mret NoEntries
        else mret (ShowEndContestModal contest_id channel_id).

(** *** /opencontest *)

Definition opencontest (is_contest_admin : bool) : M Response :=
  if negb is_contest_admin then mret PermissionDenied
  else
    picked ← is_winner_picked;
    if (picked : bool) then mret AlreadyHasWinner
    else
      contest_open ← is_contest_open;
      if (contest_open : bool) then mret AlreadyOpen
      else
        set_contest_open true;;
        mret Reopened.

(** *** /listentries *)

Definition listentries (is_contest_admin : bool) : M Response :=
  if negb is_contest_admin then mret PermissionDenied
  else
    contest_open ← is_contest_open;
    if negb contest_open then mret ListClosed
    else
      contest_id ← get_current_contest_id;
      d ← get_db;
      (* ... WHERE contest_id = ? ORDER BY user_id *)
      let rows := merge_sort by_user_id
                    (map (fun e => (e_user_id e, e_system_name e))
                         (filter (fun e => e_contest_id e = contest_id)
                                 (contest_entries d))) in
      match rows with
      | [] => mret NoEntriesToList
      | _ => mret (EntriesListed rows)
      end.

(** *** /newcontest *)

Definition newcontest (is_contest_admin : bool) (now channel_id : Z) : M Response :=
  if negb is_contest_admin then mret PermissionDenied
  else
    try_except (transaction (
      (* close the current contest *)
      modify_db (upsert_setting "contest_open" (lit "0"));;
      (* insert a new contest row *)
      let opened_at := isoformat now in
      new_contest_id ← exec_insert_contest opened_at;
      (* clear FOB system for the new contest (settings is global) *)
      modify_db (upsert_setting "fob_system" (lit ""));;
      modify_db (delete_setting "entry_deadline");;
      (* clear countdown message tracking *)
      modify_db (delete_setting "countdown_message_id");;
      modify_db (delete_setting "countdown_channel_id");;
      (* update current_contest_id and reopen entries *)
      modify_db (upsert_setting "current_contest_id" (py_str new_contest_id));;
      modify_db (upsert_setting "contest_open" (lit "1"));;
      (* reset winner-picked flag for the new contest *)
      modify_db (upsert_setting WINNER_PICKED_KEY (lit "0"));;
      (* conn.commit(), then show the modal to set the deadline *)
      mret (ShowDeadlineModal new_contest_id opened_at channel_id)))
    is_sqlite_error
    (fun e => log_record (LogException "Error while starting new contest" e);;
              mret NewContestFailed).

(** Remove the tracked countdown message, as [DeadlineModal.on_submit] and
    [cleardeadline] do. *)
Definition clear_previous_countdown : M unit :=
  message_id ← get_countdown_message_id;
  match truthy_int message_id with
  | Some message_id =>
      channel_id ← get_countdown_channel_id;
      match truthy_int channel_id with
      | Some channel_id =>
          try_except (
            w ← get_world;
            match channels w !! channel_id with
            | Some _ =>
                fetch_message channel_id message_id;;
                delete_message channel_id message_id
            | None => mret tt
            end)
          is_http_exception
          (fun e => log_record (LogWarning "delete countdown message" e))
      | None => mret tt
      end;;
      set_countdown_message_id None
  | None => mret tt
  end.

(** The loop restarted by [update_countdown.restart()] runs as a command of
    its own ([CountdownTick] below). *)
Definition DeadlineModal_on_submit
    (new_contest_id : Z) (opened_at : pystr) (channel_id : Z)
    (deadline_input : pystr) (now : Z) : M Response :=
  try_except (
    deadline_dt ← datetime_strptime deadline_input;
    let deadline_iso := isoformat deadline_dt in
    (* validate deadline is in the future *)
    if deadline_dt <=? now then mret DeadlineMustBeFuture
    else
      set_entry_deadline (Some deadline_iso);;
      set_countdown_channel_id channel_id;;
      clear_previous_countdown;;
      mret (NewContestStarted new_contest_id opened_at
              (timestamp deadline_dt) channel_id))
  (fun e => match e with ValueError => true | _ => false end)
  (fun _ => mret InvalidDeadlineFormat).

(** *** /setdeadline, /cleardeadline *)

Definition setdeadline (is_contest_admin : bool) (datetime_local : pystr)
    (channel_id : Z) : M Response :=
  if negb is_contest_admin then mret PermissionDenied
  else
    picked ← is_winner_picked;
    if (picked : bool) then mret AlreadyHasWinner
    else
      try_except (
        deadline_local ← datetime_strptime datetime_local;
        (* convert CST to UTC (add 6 hours) *)
        let deadline_dt := deadline_local + 6 * 3600 * 1000000 in
        let deadline_iso := isoformat deadline_dt in
        set_entry_deadline (Some deadline_iso);;
        set_countdown_channel_id channel_id;;
        mret (DeadlineSet (timestamp deadline_dt)))
      (fun e => match e with ValueError => true | _ => false end)
      (fun _ => mret InvalidDeadlineFormat).

Definition cleardeadline (is_contest_admin : bool) : M Response :=
  if negb is_contest_admin then mret PermissionDenied
  else
    set_entry_deadline None;;
    clear_previous_countdown;;
    mret DeadlineCleared.

(** *** /setprizes *)

Fixpoint collect_prizes (i : Z) (fields : list pystr) : Z + list pystr :=
  match fields with
  | [] => inr []
  | field :: fields' =>
      match strip field with
      | [] => inl (i + 1)
      | value =>
          match collect_prizes (i + 1) fields' with
          | inl k => inl k
          | inr prizes => inr (value :: prizes)
          end
      end
  end.

Definition SetPrizesModal_on_submit
    (count prize1 prize2 prize3 prize4 : pystr) : M Response :=
  let fields := [prize1; prize2; prize3; prize4] in
  match py_int count with
  | None => mret PrizeCountNotANumber
  | Some n =>
      if negb ((1 <=? n) && (n <=? 4)) then mret PrizeCountOutOfRange
      else
        match collect_prizes 0 (take (Z.to_nat n) fields) with
        | inl k => mret (PrizeEmpty k n)
        | inr prizes =>
            set_prizes_list prizes;;
            mret (PrizesUpdated prizes)
        end
  end.

Definition setprizes (is_contest_admin : bool) : M Response :=
  if negb is_contest_admin then mret PermissionDenied
  else mret ShowSetPrizesModal.

(** *** Commands that only read *)

Definition myguess (user_id : Z) : M Response :=
  system ← get_user_entry user_id;
  match system with
  | None => mret NoGuessYet
  | Some system => mret (YourGuess system)
  end.

Definition prizes : M Response :=
  prizes_list ← get_prizes_list;
  match prizes_list with
  | [] => mret PrizesNotSet
  | _ => mret (PrizesListed prizes_list)
  end.

Definition conteststatus : M Response :=
  contest_id ← get_current_contest_id;
  opened_at_raw ← get_contest_open_date contest_id;
  deadline_iso ← get_entry_deadline;
  contest_open ← is_contest_open;
  winner_picked ← is_winner_picked;
  fob_system ← get_fob_system;
  total_entries ← get_total_entries_for_current_contest;
  deadline ← match truthy_str deadline_iso with
             | Some deadline_iso =>
                 deadline_dt ← datetime_fromisoformat deadline_iso;
                 mret (Some (timestamp deadline_dt))
             | None => mret None
             end;
  winner ← (if (winner_picked : bool) then get_current_winner_info
            else mret (None, None));
  mret (ContestStatus contest_id opened_at_raw contest_open deadline
          total_entries (truthy_str fob_system) winner_picked winner).

Definition contesthistory : M Response :=
  d ← get_db;
  match merge_sort by_id_desc (contests d) with
  | [] => mret NoContestsRecorded
  | rows => mret (ContestHistory rows)
  end.

Definition pastwinners : M Response :=
  d ← get_db;
  match merge_sort by_id_desc
          (filter (fun c => c_winner_user_id c <> None) (contests d)) with
  | [] => mret NoWinnersYet
  | rows => mret (PastWinners rows)
  end.

(** [backupdb] copies the database file; the database stays as it is. *)
Definition backupdb (is_contest_admin : bool) : M Response :=
  if negb is_contest_admin then mret PermissionDenied
  else mret BackupCreated.

(** ** Everything that runs against the store *)

Inductive Command :=
| Startup (now : Z)   (* the process starts: [init_db()] *)
| Ping | Rules | AllowedSystems | HelpContest | UtcNow
| Prizes
| MyGuess (user_id : Z)
| ConteststatusCmd
| ContesthistoryCmd
| PastwinnersCmd
| Enter (now user_id : Z) (system : pystr)
| SetPrizes (is_contest_admin : bool)
| SetPrizesSubmit (count prize1 prize2 prize3 prize4 : pystr)
| EndContest (is_contest_admin : bool) (channel_id : Z)
| EndContestSubmit (contest_id channel_id : Z) (fob_system_input : pystr) (seed : nat)
| OpenContest (is_contest_admin : bool)
| ListEntries (is_contest_admin : bool)
| NewContest (is_contest_admin : bool) (now channel_id : Z)
| DeadlineSubmit (new_contest_id : Z) (opened_at : pystr) (channel_id : Z)
    (deadline_input : pystr) (now : Z)
| SetDeadline (is_contest_admin : bool) (datetime_local : pystr) (channel_id : Z)
| ClearDeadline (is_contest_admin : bool)
| BackupDb (is_contest_admin : bool)
| CountdownTick (now : Z).

Definition handle (c : Command) : M (option Response) :=
  match c with
  | Startup now => init_db now;; mret None
  | Ping | Rules | AllowedSystems | HelpContest | UtcNow =>
      mret (Some StaticText)
  | Prizes => Some <$> prizes
  | MyGuess user_id => Some <$> myguess user_id
  | ConteststatusCmd => Some <$> conteststatus
  | ContesthistoryCmd => Some <$> contesthistory
  | PastwinnersCmd => Some <$> pastwinners
  | Enter now user_id system => Some <$> enter now user_id system
  | SetPrizes a => Some <$> setprizes a
  | SetPrizesSubmit count p1 p2 p3 p4 =>
      Some <$> SetPrizesModal_on_submit count p1 p2 p3 p4
  | EndContest a channel_id => Some <$> endcontest a channel_id
  | EndContestSubmit contest_id channel_id input seed =>
      Some <$> EndContestModal_on_submit contest_id channel_id input seed
  | OpenContest a => Some <$> opencontest a
  | ListEntries a => Some <$> listentries a
  | NewContest a now channel_id => Some <$> newcontest a now channel_id
  | DeadlineSubmit new_contest_id opened_at channel_id input now =>
      Some <$> DeadlineModal_on_submit new_contest_id opened_at channel_id input now
  | SetDeadline a input channel_id => Some <$> setdeadline a input channel_id
  | ClearDeadline a => Some <$> cleardeadline a
  | BackupDb a => Some <$> backupdb a
  | CountdownTick now => update_countdown now;; mret None
  end.

(** The store after a command. *)
Definition after (c : Command) (s : State) : State := (handle c s).2.

(** The states the bot can be in: the store [init_db] leaves when the
    process first starts, and what commands make of it. *)
Inductive reachable : State -> Prop :=
| reachable_start now s0 :
    (init_db now s0).1 = Ok tt -> reachable (init_db now s0).2
| reachable_after c s :
    reachable s -> reachable (after c s).
End Bot.
(** *** Facts about the string operations *)

Section StringFacts.

(** A property of ASCII code points is settled by running through them. *)
Lemma ascii_cases (P : N -> bool) :
  forallb P (map N.of_nat (seq 0 128)) = true ->
  forall c, is_ascii c = true -> P c = true.
Proof.
  intros H c Hc. rewrite forallb_forall in H. apply H.
  apply in_map_iff. exists (N.to_nat c). split.
  - apply N2Nat.id.
  - apply in_seq. unfold is_ascii in Hc. apply N.ltb_lt in Hc. lia.
Qed.

Lemma upper_is_ascii c : is_ascii_upper c = true -> is_ascii c = true.
Proof.
  unfold is_ascii_upper, is_ascii. rewrite andb_true_iff, !N.leb_le, N.ltb_lt. lia.
Qed.

Lemma lower_is_ascii c : is_ascii_lower c = true -> is_ascii c = true.
Proof.
  unfold is_ascii_lower, is_ascii. rewrite andb_true_iff, !N.leb_le, N.ltb_lt. lia.
Qed.

Lemma split_space c s : is_space c = true -> split (c :: s) = split s.
Proof. intros H. simpl. now rewrite H. Qed.

Lemma split_nonspace_head c s :
  is_space c = false -> exists w ws, split (c :: s) = (c :: w) :: ws.
Proof.
  intros H. simpl. rewrite H. destruct s as [|d s'].
  - now exists [], [].
  - destruct (is_space d).
    + now exists [], (split (d :: s')).
    + destruct (split (d :: s')) as [|w ws].
      * now exists [], [].
      * now exists w, ws.
Qed.

(** Splitting distributes over a whitespace code point. *)
Lemma split_app_space u w v :
  is_space w = true -> split (u ++ w :: v) = split u ++ split v.
Proof.
  intros Hw. induction u as [|c u IH].
  - now apply split_space.
  - destruct (is_space c) eqn:Hc.
    + rewrite <- app_comm_cons, !split_space by assumption. exact IH.
    + destruct u as [|d u'].
      * simpl. rewrite Hc, Hw. reflexivity.
      * change ((c :: d :: u') ++ w :: v) with (c :: (d :: u') ++ w :: v).
        change (split (c :: (d :: u') ++ w :: v))
          with (if is_space c then split ((d :: u') ++ w :: v)
                else if is_space d then [c] :: split ((d :: u') ++ w :: v)
                     else match split ((d :: u') ++ w :: v) with
                          | w0 :: ws => (c :: w0) :: ws
                          | [] => [[c]]
                          end).
        change (split (c :: d :: u'))
          with (if is_space c then split (d :: u')
                else if is_space d then [c] :: split (d :: u')
                     else match split (d :: u') with
                          | w0 :: ws => (c :: w0) :: ws
                          | [] => [[c]]
                          end).
        rewrite Hc, IH. destruct (is_space d) eqn:Hd; [reflexivity|].
        destruct (split_nonspace_head d u' Hd) as (w0 & ws & E).
        rewrite E. reflexivity.
Qed.

Lemma split_app_space_end s w : is_space w = true -> split (s ++ [w]) = split s.
Proof. intros H. rewrite split_app_space by assumption. apply app_nil_r. Qed.

Lemma split_lstrip s : split (lstrip s) = split s.
Proof.
  induction s as [|c s IH]; [reflexivity|].
  simpl lstrip. destruct (is_space c) eqn:Hc; [|reflexivity].
  now rewrite split_space.
Qed.

Lemma split_rstrip s : split (rstrip s) = split s.
Proof.
  unfold rstrip. rewrite <- (rev_involutive s) at 2.
  induction (rev s) as [|c t IH]; [reflexivity|].
  simpl lstrip. destruct (is_space c) eqn:Hc; [|reflexivity].
  simpl rev. now rewrite split_app_space_end.
Qed.

Lemma split_strip s : split (strip s) = split s.
Proof. unfold strip. now rewrite split_rstrip, split_lstrip. Qed.

(** A word: a non-empty run without whitespace. *)
Definition is_word (w : pystr) : bool :=
  negb (existsb is_space w) && negb (Nat.eqb (length w) 0).

Lemma split_word w : is_word w = true -> split w = [w].
Proof.
  unfold is_word. rewrite andb_true_iff, !negb_true_iff.
  intros [Hs Hn]. induction w as [|c w IH]; [discriminate|].
  simpl in Hs. apply orb_false_iff in Hs as [Hc Hw].
  simpl. rewrite Hc. destruct w as [|d w']; [reflexivity|].
  rewrite IH by auto. simpl in Hw. apply orb_false_iff in Hw as [Hd _].
  now rewrite Hd.
Qed.

Lemma split_cons c s :
  split (c :: s) =
  if is_space c then split s
  else match s with
       | [] => [[c]]
       | d :: _ =>
           if is_space d then [c] :: split s
           else match split s with
                | w :: ws => (c :: w) :: ws
                | [] => [[c]]
                end
       end.
Proof. destruct s; reflexivity. Qed.

Lemma split_words s : forallb is_word (split s) = true.
Proof.
  induction s as [|c s IH]; [reflexivity|].
  rewrite split_cons. destruct (is_space c) eqn:Hc; [exact IH|].
  assert (H1 : is_word [c] = true) by (unfold is_word; simpl; now rewrite Hc).
  destruct s as [|d s']; [simpl; now rewrite H1|].
  destruct (is_space d) eqn:Hd.
  - cbn [forallb]. now rewrite H1, IH.
  - destruct (split (d :: s')) as [|w ws]; [simpl; now rewrite H1|].
    simpl in IH |- *. apply andb_true_iff in IH as [Hw Hws].
    rewrite Hws, andb_true_r. unfold is_word in *. simpl. rewrite Hc. simpl.
    apply andb_true_iff in Hw as [Hw _]. now rewrite Hw.
Qed.

Lemma is_space_32 : is_space 32 = true.
Proof. reflexivity. Qed.

(** Joining words with one space and splitting again gives the words back. *)
Lemma split_join ws :
  forallb is_word ws = true -> split (join (lit " ") ws) = ws.
Proof.
  induction ws as [|w ws IH]; [reflexivity|].
  cbn [forallb]. rewrite andb_true_iff. intros [Hw Hws].
  destruct ws as [|w' ws'].
  - now apply split_word.
  - change (join (lit " ") (w :: w' :: ws'))
      with (w ++ 32%N :: join (lit " ") (w' :: ws')).
    rewrite split_app_space by reflexivity.
    rewrite IH by assumption. now rewrite split_word.
Qed.

Lemma forallb_join (P : N -> bool) ws :
  P 32%N = true -> forallb (forallb P) ws = true ->
  forallb P (join (lit " ") ws) = true.
Proof.
  intros Hsp. induction ws as [|w ws IH]; [reflexivity|].
  cbn [forallb]. rewrite andb_true_iff. intros [Hw Hws].
  destruct ws as [|w' ws']; [exact Hw|].
  change (join (lit " ") (w :: w' :: ws'))
    with (w ++ 32%N :: join (lit " ") (w' :: ws')).
  rewrite forallb_app. cbn [forallb]. now rewrite Hw, Hsp, IH.
Qed.

Lemma forallb_split (P : N -> bool) s :
  forallb P s = true -> forallb (forallb P) (split s) = true.
Proof.
  induction s as [|c s IH]; [reflexivity|].
  cbn [forallb]. rewrite andb_true_iff. intros [Hc Hs].
  specialize (IH Hs). rewrite split_cons.
  destruct (is_space c); [exact IH|].
  destruct s as [|d s']; [simpl; now rewrite Hc|].
  destruct (is_space d).
  - cbn [forallb]. cbn [forallb] in IH. now rewrite Hc, IH.
  - destruct (split (d :: s')) as [|w ws]; [simpl; now rewrite Hc|].
    cbn [forallb] in IH |- *. apply andb_true_iff in IH as [Hw Hws].
    now rewrite Hc, Hw, Hws.
Qed.

(** *** Title-casing of ASCII text, one code point at a time *)

Definition lower1 (c : N) : N := if is_ascii_upper c then (c + 32)%N else c.
Definition upper1 (c : N) : N := if is_ascii_lower c then (c - 32)%N else c.
Definition title1 (previous_is_cased : bool) (c : N) : N :=
  if previous_is_cased then lower1 c else upper1 c.

Fixpoint title_ascii (previous_is_cased : bool) (s : pystr) : pystr :=
  match s with
  | [] => []
  | c :: s' => title1 previous_is_cased c :: title_ascii (is_cased c) s'
  end.

(** On ASCII code points the tables are the familiar ones. *)
Lemma ascii_case_rows c :
  is_ascii c = true ->
  to_lower_full c = [lower1 c] /\ to_title_full c = [upper1 c]
  /\ (c =? 931)%N = false.
Proof.
  intros Hc.
  pose (P := fun c => bool_decide (to_lower_full c = [lower1 c])
                      && bool_decide (to_title_full c = [upper1 c])
                      && negb (c =? 931)%N).
  assert (H : P c = true).
  { apply ascii_cases; [|exact Hc]. vm_compute; reflexivity. }
  unfold P in H. rewrite !andb_true_iff in H. destruct H as [[H1 H2] H3].
  apply bool_decide_eq_true in H1, H2. apply negb_true_iff in H3. auto.
Qed.

Lemma do_title_ascii before p s :
  is_ascii_str s = true -> do_title before p s = title_ascii p s.
Proof.
  revert before p. induction s as [|c s IH]; intros before p; [reflexivity|].
  simpl. rewrite andb_true_iff. intros [Hc Hs]. rewrite IH by assumption.
  destruct (ascii_case_rows c Hc) as (Hl & Ht & Hsigma).
  unfold title1, lower_ucs4. rewrite Hsigma, Hl, Ht.
  destruct p; reflexivity.
Qed.

Lemma title1_facts p c :
  is_ascii c = true ->
  is_ascii (title1 p c) = true
  /\ is_cased (title1 p c) = is_cased c
  /\ title1 p (title1 p c) = title1 p c
  /\ is_space (title1 p c) = is_space c.
Proof.
  intros Hc.
  pose (P := fun c => is_ascii (title1 p c)
                      && Bool.eqb (is_cased (title1 p c)) (is_cased c)
                      && (title1 p (title1 p c) =? title1 p c)%N
                      && Bool.eqb (is_space (title1 p c)) (is_space c)).
  assert (H : P c = true).
  { apply ascii_cases; [|exact Hc]. destruct p; vm_compute; reflexivity. }
  unfold P in H. rewrite !andb_true_iff in H.
  destruct H as [[[H1 H2] H3] H4].
  apply eqb_prop in H2, H4. apply N.eqb_eq in H3. auto.
Qed.

Lemma lower1_facts p c :
  is_cased (lower1 c) = is_cased c
  /\ title1 p (lower1 c) = title1 p c
  /\ is_space (lower1 c) = is_space c.
Proof.
  destruct (is_ascii_upper c) eqn:Hu.
  - pose (P := fun c => Bool.eqb (is_cased (lower1 c)) (is_cased c)
                        && (title1 p (lower1 c) =? title1 p c)%N
                        && Bool.eqb (is_space (lower1 c)) (is_space c)).
    assert (H : P c = true).
    { apply ascii_cases; [|now apply upper_is_ascii].
      destruct p; vm_compute; reflexivity. }
    unfold P in H. rewrite !andb_true_iff in H. destruct H as [[H1 H2] H3].
    apply eqb_prop in H1, H3. apply N.eqb_eq in H2. auto.
  - unfold lower1. rewrite Hu. auto.
Qed.

Lemma title_ascii_is_ascii p s :
  is_ascii_str s = true -> is_ascii_str (title_ascii p s) = true.
Proof.
  revert p. induction s as [|c s IH]; intros p; [reflexivity|].
  simpl. rewrite !andb_true_iff. intros [Hc Hs]. split; [|now apply IH].
  now apply title1_facts.
Qed.

Lemma title_ascii_idem p s :
  is_ascii_str s = true -> title_ascii p (title_ascii p s) = title_ascii p s.
Proof.
  revert p. induction s as [|c s IH]; intros p; [reflexivity|].
  simpl. rewrite andb_true_iff. intros [Hc Hs].
  destruct (title1_facts p c Hc) as (_ & Hcased & Hidem & _).
  now rewrite Hidem, Hcased, IH.
Qed.

Lemma title_ascii_lower p s : title_ascii p (map lower1 s) = title_ascii p s.
Proof.
  revert p. induction s as [|c s IH]; intros p; [reflexivity|].
  simpl. destruct (lower1_facts p c) as (Hcased & Ht & _).
  now rewrite Ht, Hcased, IH.
Qed.

Lemma title_ascii_app_space p u v :
  title_ascii p (u ++ 32%N :: v) = title_ascii p u ++ 32%N :: title_ascii false v.
Proof.
  revert p. induction u as [|c u IH]; intros p.
  - destruct p; reflexivity.
  - simpl. now rewrite IH.
Qed.

(** Title-casing word by word: only the first word sees the incoming state. *)
Definition title_words (p : bool) (ws : list pystr) : list pystr :=
  match ws with
  | [] => []
  | w :: ws' => title_ascii p w :: map (title_ascii false) ws'
  end.

Lemma title_ascii_join p ws :
  title_ascii p (join (lit " ") ws) = join (lit " ") (title_words p ws).
Proof.
  revert p. induction ws as [|w ws IH]; intros p; [reflexivity|].
  destruct ws as [|w' ws']; [reflexivity|].
  change (join (lit " ") (w :: w' :: ws'))
    with (w ++ 32%N :: join (lit " ") (w' :: ws')).
  rewrite title_ascii_app_space, IH. reflexivity.
Qed.

Lemma title_ascii_word p w :
  is_ascii_str w = true -> is_word w = true -> is_word (title_ascii p w) = true.
Proof.
  unfold is_word. intros Ha. rewrite !andb_true_iff, !negb_true_iff.
  intros [Hs Hn]. split.
  - clear Hn. revert p Ha Hs. induction w as [|c w IH]; intros p Ha Hs; [reflexivity|].
    simpl in *. apply andb_true_iff in Ha as [Hc Ha].
    apply orb_false_iff in Hs as [Hsc Hs].
    destruct (title1_facts p c Hc) as (_ & _ & _ & Hsp).
    rewrite Hsp, Hsc. simpl. now apply IH.
  - destruct w; [discriminate|reflexivity].
Qed.

Lemma title_words_words p ws :
  forallb is_ascii_str ws = true -> forallb is_word ws = true ->
  forallb is_word (title_words p ws) = true.
Proof.
  destruct ws as [|w ws]; [reflexivity|].
  cbn [forallb title_words]. rewrite !andb_true_iff.
  intros [Ha Has] [Hw Hws]. split; [now apply title_ascii_word|].
  induction ws as [|w' ws IH]; [reflexivity|].
  cbn [forallb map] in *. apply andb_true_iff in Has as [Ha' Has].
  apply andb_true_iff in Hws as [Hw' Hws].
  rewrite title_ascii_word by assumption. now apply IH.
Qed.

Lemma is_ascii_join_split x :
  is_ascii_str x = true -> is_ascii_str (join (lit " ") (split x)) = true.
Proof.
  intros Hx. apply forallb_join; [reflexivity|]. now apply forallb_split.
Qed.

(** On ASCII text the source function is: split, join, title-case. *)
Lemma normalize_ascii x :
  is_ascii_str x = true ->
  normalize_system_name x = title_ascii false (join (lit " ") (split x)).
Proof.
  intros Hx. unfold normalize_system_name, title.
  rewrite split_strip. apply do_title_ascii. now apply is_ascii_join_split.
Qed.

Lemma normalize_is_ascii x :
  is_ascii_str x = true -> is_ascii_str (normalize_system_name x) = true.
Proof.
  intros Hx. rewrite normalize_ascii by assumption.
  apply title_ascii_is_ascii. now apply is_ascii_join_split.
Qed.

Lemma normalize_idempotent_ascii x :
  is_ascii_str x = true ->
  normalize_system_name (normalize_system_name x) = normalize_system_name x.
Proof.
  intros Hx.
  rewrite (normalize_ascii (normalize_system_name x)) by now apply normalize_is_ascii.
  rewrite (normalize_ascii x) by assumption.
  assert (E : split (title_ascii false (join (lit " ") (split x)))
              = title_words false (split x)).
  { rewrite title_ascii_join. apply split_join.
    apply title_words_words; [now apply forallb_split | apply split_words]. }
  rewrite E, <- title_ascii_join. apply title_ascii_idem.
  now apply is_ascii_join_split.
Qed.

Lemma split_map_lower s : split (map lower1 s) = map (map lower1) (split s).
Proof.
  induction s as [|c s IH]; [reflexivity|].
  cbn [map]. rewrite !split_cons, IH.
  destruct (lower1_facts false c) as (_ & _ & Hc). rewrite Hc.
  destruct (is_space c); [reflexivity|].
  destruct s as [|d s']; [reflexivity|].
  cbn [map]. destruct (lower1_facts false d) as (_ & _ & Hd). rewrite Hd.
  destruct (is_space d); [reflexivity|].
  cbn [map] in IH. destruct (split (d :: s')); reflexivity.
Qed.

Lemma join_map_lower ws :
  join (lit " ") (map (map lower1) ws) = map lower1 (join (lit " ") ws).
Proof.
  induction ws as [|w ws IH]; [reflexivity|].
  destruct ws as [|w' ws']; [reflexivity|].
  change (join (lit " ") (w :: w' :: ws'))
    with (w ++ 32%N :: join (lit " ") (w' :: ws')).
  rewrite map_app. cbn [map]. rewrite <- IH. reflexivity.
Qed.

(** On ASCII text the result depends on the lower-cased input only. *)
Lemma normalize_lower x :
  is_ascii_str x = true ->
  normalize_system_name x
  = title_ascii false (join (lit " ") (split (map lower1 x))).
Proof.
  intros Hx. rewrite normalize_ascii by assumption.
  now rewrite split_map_lower, join_map_lower, title_ascii_lower.
Qed.

End StringFacts.

(** *** Variants of a name

    Two ASCII strings are variants of one another when one is obtained from
    the other by changing the case of letters and by lengthening, shortening
    or re-spelling runs of whitespace at the start, at the end or between
    words. *)

Inductive variant_step : pystr -> pystr -> Prop :=
| step_case u c v :
    is_ascii_upper c = true ->
    variant_step (u ++ c :: v) (u ++ (c + 32)%N :: v)
| step_leading w s :
    is_space w = true -> variant_step (w :: s) s
| step_trailing w s :
    is_space w = true -> variant_step (s ++ [w]) s
| step_run u w w' v :
    is_space w = true -> is_space w' = true ->
    variant_step (u ++ w :: w' :: v) (u ++ w :: v)
| step_kind u w w' v :
    is_space w = true -> is_space w' = true ->
    variant_step (u ++ w :: v) (u ++ w' :: v).

Inductive variant : pystr -> pystr -> Prop :=
| variant_refl x : variant x x
| variant_one x y :
    is_ascii_str x = true -> is_ascii_str y = true ->
    variant_step x y -> variant x y
| variant_sym x y : variant x y -> variant y x
| variant_trans x y z : variant x y -> variant y z -> variant x z.

Lemma variant_step_normalize x y :
  is_ascii_str x = true -> is_ascii_str y = true ->
  variant_step x y -> normalize_system_name x = normalize_system_name y.
Proof.
  intros Hx Hy H. destruct H as [u c v Hc|w s Hw|w s Hw|u w w' v Hw Hw'|u w w' v Hw Hw'].
  - rewrite (normalize_lower _ Hx), (normalize_lower _ Hy).
    rewrite !map_app. cbn [map].
    replace (lower1 (c + 32)) with (lower1 c); [reflexivity|].
    unfold lower1. rewrite Hc.
    replace (is_ascii_upper (c + 32)) with false; [reflexivity|].
    symmetry. unfold is_ascii_upper in *.
    apply andb_true_iff in Hc as [H1 H2]. apply N.leb_le in H1, H2.
    apply andb_false_iff. right. apply N.leb_gt. lia.
  - rewrite (normalize_ascii _ Hx), (normalize_ascii _ Hy).
    now rewrite split_space.
  - rewrite (normalize_ascii _ Hx), (normalize_ascii _ Hy).
    now rewrite split_app_space_end.
  - rewrite (normalize_ascii _ Hx), (normalize_ascii _ Hy).
    rewrite !split_app_space by assumption. now rewrite split_space.
  - rewrite (normalize_ascii _ Hx), (normalize_ascii _ Hy).
    now rewrite !split_app_space.
Qed.

Lemma variant_normalize x y :
  variant x y -> normalize_system_name x = normalize_system_name y.
Proof.
  induction 1 as [x|x y Hx Hy H|x y _ IH|x y z _ IH1 _ IH2].
  - reflexivity.
  - now apply variant_step_normalize.
  - now symmetry.
  - now transitivity (normalize_system_name y).
Qed.

(** C9 (amended).  On ASCII text [normalize_system_name] is idempotent, and
    two ASCII strings that differ only in letter case and in whitespace at
    the start, at the end or in the runs between words have the same normal
    form. *)
Theorem normalize_canonical_on_ascii :
  (forall x, is_ascii_str x = true ->
     normalize_system_name (normalize_system_name x) = normalize_system_name x)
  /\ (forall x y, variant x y ->
        normalize_system_name x = normalize_system_name y).
Proof.
  split.
  - apply normalize_idempotent_ascii.
  - apply variant_normalize.
Qed.

(** The string "a", U+0130, "b": the second pass title-cases the "b" again,
    because the U+0307 produced by lower-casing U+0130 is not cased. *)
Lemma normalize_not_idempotent_beyond_ascii :
  let x := [97; 304; 98]%N in
  normalize_system_name x = [65; 105; 775; 98]%N
  /\ normalize_system_name (normalize_system_name x) = [65; 105; 775; 66]%N
  /\ normalize_system_name (normalize_system_name x) <> normalize_system_name x.
Proof. repeat split. discriminate. Qed.

Lemma normalize_canonical_on_ascii_witness :
  is_ascii_str (lit " old   MAN star ") = true
  /\ normalize_system_name (normalize_system_name (lit " old   MAN star "))
     = normalize_system_name (lit " old   MAN star ")
  /\ variant (lit "tama ") (lit "Tama")
  /\ normalize_system_name (lit "tama ") = normalize_system_name (lit "Tama").
Proof.
  assert (V : variant (lit "tama ") (lit "Tama")).
  { apply (variant_trans _ (lit "tama")).
    - apply variant_one; [reflexivity|reflexivity|].
      exact (step_trailing 32%N (lit "tama") eq_refl).
    - apply variant_sym. apply variant_one; [reflexivity|reflexivity|].
      exact (step_case [] 84%N (lit "ama") eq_refl). }
  split; [reflexivity|].
  split; [apply (proj1 normalize_canonical_on_ascii); reflexivity|].
  split; [exact V|].
  apply (proj2 normalize_canonical_on_ascii). exact V.
Defined.

(** ** Reading the store

    What the read helpers return, as functions of the database. *)

Section Workflow.

Context `{RT : Runtime}.

Definition contest_open_flag (d : DB) : bool :=
  match settings d !! "contest_open" with
  | None => true
  | Some v => bool_decide (v = lit "1")
  end.

Definition winner_picked_flag (d : DB) : bool :=
  match settings d !! "winner_picked" with
  | None => false
  | Some v => bool_decide (v = lit "1")
  end.

(** [None] when the stored value is not an integer ([ValueError]). *)
Definition current_contest_id (d : DB) : option Z :=
  match settings d !! "current_contest_id" with
  | None => Some 1
  | Some v => py_int v
  end.

(** [None] when the stored deadline does not parse ([ValueError]). *)
Definition deadline_passed (now : Z) (d : DB) : option bool :=
  match settings d !! "entry_deadline" with
  | None => Some false
  | Some deadline => (fun t => t <=? now) <$> fromisoformat deadline
  end.

Definition user_entry (contest_id user_id : Z) (d : DB) : option pystr :=
  e_system_name <$> find (same_user contest_id user_id) (contest_entries d).

Definition system_taken (contest_id : Z) (system_name : pystr) (d : DB) : bool :=
  existsb (same_system contest_id system_name) (contest_entries d).

Definition of_option {A} (o : option A) (s : State) : Res A * State :=
  match o with
  | Some a => (Ok a, s)
  | None => (Raise ValueError, s)
  end.

Lemma run_bind {A B} (m : M A) (f : A -> M B) s :
  (m ≫= f) s = match m s with
               | (Ok a, s') => f a s'
               | (Raise e, s') => (Raise e, s')
               end.
Proof. reflexivity. Qed.

Lemma run_ret {A} (a : A) s : (mret a : M A) s = (Ok a, s).
Proof. reflexivity. Qed.

Lemma with_db_ok {A} name (m : M A) s a s' :
  m s = (Ok a, s') -> with_db name m s = (Ok a, s').
Proof. intros H. unfold with_db, try_except. now rewrite H. Qed.

Lemma with_db_value_error {A} name (m : M A) s s' :
  m s = (Raise ValueError, s') -> with_db name m s = (Raise ValueError, s').
Proof. intros H. unfold with_db, try_except. now rewrite H. Qed.

Lemma with_db_of_option {A} name (m : M A) s o :
  m s = of_option o s -> with_db name m s = of_option o s.
Proof.
  destruct o; simpl; intros H.
  - now apply with_db_ok.
  - now apply with_db_value_error.
Qed.

Lemma select_setting_run key s :
  select_setting key s = (Ok (settings (db s) !! key), s).
Proof. reflexivity. Qed.

Lemma is_contest_open_run s :
  is_contest_open s = (Ok (contest_open_flag (db s)), s).
Proof.
  apply with_db_ok. rewrite run_bind, select_setting_run.
  unfold contest_open_flag. now destruct (settings (db s) !! "contest_open").
Qed.

Lemma is_winner_picked_run s :
  is_winner_picked s = (Ok (winner_picked_flag (db s)), s).
Proof.
  apply with_db_ok. rewrite run_bind, select_setting_run.
  unfold winner_picked_flag, WINNER_PICKED_KEY.
  now destruct (settings (db s) !! "winner_picked").
Qed.

Lemma get_entry_deadline_run s :
  get_entry_deadline s = (Ok (settings (db s) !! "entry_deadline"), s).
Proof. now apply with_db_ok. Qed.

Lemma get_current_contest_id_run s :
  get_current_contest_id s = of_option (current_contest_id (db s)) s.
Proof.
  apply with_db_of_option. rewrite run_bind, select_setting_run.
  unfold current_contest_id, int.
  destruct (settings (db s) !! "current_contest_id") as [v|]; [|reflexivity].
  now destruct (py_int v).
Qed.

Lemma is_past_deadline_run now s :
  is_past_deadline now s = of_option (deadline_passed now (db s)) s.
Proof.
  apply with_db_of_option. rewrite run_bind, get_entry_deadline_run.
  unfold deadline_passed, datetime_fromisoformat.
  destruct (settings (db s) !! "entry_deadline") as [v|]; [|reflexivity].
  rewrite run_bind. now destruct (fromisoformat v).
Qed.

Lemma get_user_entry_run user_id s cid :
  current_contest_id (db s) = Some cid ->
  get_user_entry user_id s = (Ok (user_entry cid user_id (db s)), s).
Proof.
  intros H. apply with_db_ok.
  now rewrite run_bind, get_current_contest_id_run, H.
Qed.

Lemma is_system_taken_run system_name s cid :
  current_contest_id (db s) = Some cid ->
  is_system_taken system_name s = (Ok (system_taken cid system_name (db s)), s).
Proof.
  intros H. apply with_db_ok.
  now rewrite run_bind, get_current_contest_id_run, H.
Qed.

(** *** Writing the store *)

Lemma modify_db_run f s : modify_db f s = (Ok tt, update_db f s).
Proof. reflexivity. Qed.

Lemma set_contest_open_run flag s :
  set_contest_open flag s
  = (Ok tt, update_db (upsert_setting "contest_open"
                         (if flag then lit "1" else lit "0")) s).
Proof. now apply with_db_ok. Qed.

Lemma set_fob_system_run system_name s :
  set_fob_system system_name s
  = (Ok tt, update_db (upsert_setting "fob_system" system_name) s).
Proof. now apply with_db_ok. Qed.

Lemma set_winner_picked_run picked s :
  set_winner_picked picked s
  = (Ok tt, update_db (upsert_setting "winner_picked"
                         (if picked then lit "1" else lit "0")) s).
Proof. now apply with_db_ok. Qed.

Lemma set_countdown_message_id_none_run s :
  set_countdown_message_id None s
  = (Ok tt, update_db (delete_setting "countdown_message_id") s).
Proof. now apply with_db_ok. Qed.

Lemma get_prizes_list_run s : exists prizes, get_prizes_list s = (Ok prizes, s).
Proof.
  unfold get_prizes_list. rewrite run_bind.
  replace (get_prizes_text s) with (Ok (settings (db s) !! "prizes_text"), s)
    by (symmetry; now apply with_db_ok).
  destruct (truthy_str (settings (db s) !! "prizes_text")) as [raw|]; [|now eexists].
  destruct (json_loads_list raw); now eexists.
Qed.

(** The row [set_user_entry] writes. *)
Definition new_entry (now contest_id user_id : Z) (system_name : pystr) : Entry :=
  {| e_contest_id := contest_id; e_user_id := user_id;
     e_system_name := system_name; e_entered_at := isoformat now |}.

Lemma set_user_entry_run now user_id system_name s cid :
  current_contest_id (db s) = Some cid ->
  set_user_entry now user_id system_name s
  = match upsert_entry (new_entry now cid user_id system_name)
            (contest_entries (db s)) with
    | Some es => (Ok tt, update_db (with_entries (fun _ => es)) s)
    | None => (Raise IntegrityError,
               add_log (LogException "set_user_entry" IntegrityError) s)
    end.
Proof.
  intros H. unfold set_user_entry, with_db, try_except.
  rewrite run_bind, get_current_contest_id_run, H. cbn [of_option].
  rewrite run_bind. unfold get_db at 1. fold (new_entry now cid user_id system_name).
  destruct (upsert_entry _ _); reflexivity.
Qed.

Lemma find_none_existsb {A} (f : A -> bool) l :
  find f l = None -> existsb f l = false.
Proof.
  induction l as [|a l IH]; [reflexivity|]. simpl.
  destruct (f a); [discriminate|]. exact IH.
Qed.

Lemma not_taken_no_violation r es :
  existsb (same_system (e_contest_id r) (e_system_name r)) es = false ->
  unique_violation r es = false.
Proof.
  unfold unique_violation. induction es as [|e es IH]; [reflexivity|].
  simpl. rewrite orb_false_iff. intros [H1 H2]. now rewrite H1, IH.
Qed.

(** A first entry of a user with a free system is appended. *)
Lemma upsert_entry_fresh now cid user_id system_name d :
  user_entry cid user_id d = None ->
  system_taken cid system_name d = false ->
  upsert_entry (new_entry now cid user_id system_name) (contest_entries d)
  = Some (contest_entries d ++ [new_entry now cid user_id system_name]).
Proof.
  unfold user_entry, system_taken, upsert_entry. intros Hu Ht.
  rewrite not_taken_no_violation by exact Ht. cbn [new_entry e_contest_id e_user_id].
  destruct (find (same_user cid user_id) (contest_entries d)) eqn:E; [discriminate|].
  now rewrite (find_none_existsb _ _ E).
Qed.

Lemma try_except_ok {A} (m : M A) catches h s a s' :
  m s = (Ok a, s') -> try_except m catches h s = (Ok a, s').
Proof. intros H. unfold try_except. now rewrite H. Qed.

(** The guards of [endcontest]: what holds when the modal is shown. *)
Lemma endcontest_guards a channel_id s cid ch s' :
  endcontest a channel_id s = (Ok (ShowEndContestModal cid ch), s') ->
  s' = s /\ a = true /\ ch = channel_id
  /\ winner_picked_flag (db s) = false
  /\ contest_open_flag (db s) = true
  /\ current_contest_id (db s) = Some cid
  /\ filter (fun e => e_contest_id e = cid) (contest_entries (db s)) <> [].
Proof.
  unfold endcontest. destruct a; cbn [negb]; [|discriminate].
  rewrite run_bind, is_winner_picked_run.
  destruct (winner_picked_flag (db s)); [discriminate|].
  rewrite run_bind, is_contest_open_run.
  destruct (contest_open_flag (db s)); cbn [negb]; [|discriminate].
  rewrite run_bind, get_current_contest_id_run.
  destruct (current_contest_id (db s)) as [c|]; cbn [of_option]; [|discriminate].
  rewrite run_bind. unfold get_db at 1.
  destruct (filter _ _) as [|e es] eqn:E; cbn [length Nat.eqb]; [discriminate|].
  intros H. injection H as <- <- <-. rewrite E. repeat split; discriminate.
Qed.

Lemma get_current_winner_info_run s cid :
  current_contest_id (db s) = Some cid ->
  get_current_winner_info s
  = (Ok match find (fun c => c_id c =? cid) (contests (db s)) with
        | None => (None, None)
        | Some row => (c_winner_user_id row, c_winner_system row)
        end, s).
Proof.
  intros H. apply with_db_ok.
  rewrite run_bind, get_current_contest_id_run, H. cbn [of_option].
  rewrite run_bind. unfold get_db at 1.
  now destruct (find _ _).
Qed.

(** After the UPDATE, the row of the contest carries the winner. *)
Lemma find_updated_winner winner_user_id winner_system cid cs :
  (exists c, c ∈ cs /\ c_id c = cid) ->
  exists row,
    find (fun c => c_id c =? cid)
         (contests (update_contest_winner winner_user_id winner_system cid
                      {| settings := ∅; contest_entries := []; contests := cs;
                         contests_seq := 0 |})) = Some row
    /\ c_winner_user_id row = Some winner_user_id
    /\ c_winner_system row = Some winner_system.
Proof.
  cbn. induction cs as [|c0 cs IH]; intros (c & Hin & Hid).
  - inversion Hin.
  - cbn. destruct (c_id c0 =? cid) eqn:E.
    + cbn. rewrite E. eexists. split; [reflexivity|]. now split.
    + rewrite E. apply IH. exists c. split; [|exact Hid].
      apply elem_of_cons in Hin as [->|Hin]; [|exact Hin].
      apply Z.eqb_neq in E. contradiction.
Qed.

(** AUTOINCREMENT: the next id is above every id of the table. *)
Lemma next_contest_id_above d c :
  c ∈ contests d -> c_id c < next_contest_id d.
Proof.
  unfold next_contest_id. generalize (contests_seq d) as seq.
  induction (contests d) as [|c0 cs IH]; intros seq Hin.
  - inversion Hin.
  - cbn. apply elem_of_cons in Hin as [->|Hin].
    + lia.
    + specialize (IH seq Hin). lia.
Qed.

(** *** The countdown loop after the deadline *)

(** An integer setting: [None] when the stored text is not an integer
    ([ValueError]), [Some None] when the key is absent. *)
Definition stored_int (key : string) (d : DB) : option (option Z) :=
  match settings d !! key with
  | None => Some None
  | Some v => Some <$> py_int v
  end.

Lemma get_countdown_message_id_run s :
  get_countdown_message_id s
  = of_option (stored_int "countdown_message_id" (db s)) s.
Proof.
  apply with_db_of_option. rewrite run_bind, select_setting_run.
  unfold stored_int, int.
  destruct (settings (db s) !! "countdown_message_id") as [v|]; [|reflexivity].
  rewrite run_bind. now destruct (py_int v).
Qed.

Lemma get_countdown_channel_id_run s :
  get_countdown_channel_id s
  = of_option (stored_int "countdown_channel_id" (db s)) s.
Proof.
  apply with_db_of_option. rewrite run_bind, select_setting_run.
  unfold stored_int, int.
  destruct (settings (db s) !! "countdown_channel_id") as [v|]; [|reflexivity].
  rewrite run_bind. now destruct (py_int v).
Qed.

(** The channel the loop posts to, when the bot can resolve it. *)
Definition countdown_channel (configured : option Z) (w : World)
  : option (Z * gmap Z Embed) :=
  let channel_id := default CHANNEL_ID (truthy_int configured) in
  if channel_id =? 0 then None
  else (fun msgs => (channel_id, msgs)) <$> channels w !! channel_id.

(** The state once the tracked message shows the terminal embed and the
    tracked id is cleared. *)
Definition deadline_reached (channel_id message_id : Z) (s : State) : State :=
  update_db (delete_setting "countdown_message_id")
    {| db := db s;
       world := {| channels :=
                     <[channel_id := <[message_id := DeadlineReachedEmbed]>
                                       (channel_messages (world s) channel_id)]>
                       (channels (world s));
                   next_message_id := next_message_id (world s) |};
       log := log s |}.

Lemma try_except_raise {A} (m : M A) catches h s e s' :
  m s = (Raise e, s') ->
  try_except m catches h s = if catches e then h e s' else (Raise e, s').
Proof. intros H. unfold try_except. now rewrite H. Qed.

Lemma fetch_message_run channel_id message_id s :
  fetch_message channel_id message_id s
  = match channel_messages (world s) channel_id !! message_id with
    | Some e => (Ok e, s)
    | None => (Raise NotFound, s)
    end.
Proof.
  unfold fetch_message. rewrite run_bind. unfold get_world at 1.
  now destruct (channel_messages (world s) channel_id !! message_id).
Qed.

(** The last edit of the countdown message. *)
Lemma final_edit_run channel_id m s :
  try_except (
    fetch_message channel_id m;;
    edit_message channel_id m DeadlineReachedEmbed;;
    set_countdown_message_id None)
  is_http_exception
  (fun e => log_record (LogWarning "update_countdown" e)) s
  = (Ok tt,
     match channel_messages (world s) channel_id !! m with
     | Some _ => deadline_reached channel_id m s
     | None => add_log (LogWarning "update_countdown" NotFound) s
     end).
Proof.
  destruct (channel_messages (world s) channel_id !! m) as [e|] eqn:E.
  - apply try_except_ok. rewrite run_bind, fetch_message_run, E.
    rewrite run_bind. unfold edit_message. rewrite run_bind.
    unfold get_world at 1. unfold put_world.
    now rewrite set_countdown_message_id_none_run.
  - rewrite (try_except_raise _ _ _ _ NotFound s); [reflexivity|].
    now rewrite run_bind, fetch_message_run, E.
Qed.

Lemma update_countdown_elapsed_run now s dl t :
  truthy_str (settings (db s) !! "entry_deadline") = Some dl ->
  fromisoformat dl = Some t ->
  t <= now ->
  update_countdown now s
  = (Ok tt,
     match stored_int "countdown_channel_id" (db s),
           stored_int "countdown_message_id" (db s) with
     | Some configured, Some message_id =>
         match countdown_channel configured (world s), truthy_int message_id with
         | Some (channel_id, msgs), Some m =>
             match msgs !! m with
             | Some _ => deadline_reached channel_id m s
             | None => add_log (LogWarning "update_countdown" NotFound) s
             end
         | _, _ => s
         end
     | _, _ => add_log (LogException "update_countdown" ValueError) s
     end).
Proof.
  intros Hdl Ht Hle. unfold update_countdown.
  destruct (stored_int "countdown_channel_id" (db s)) as [configured|] eqn:Hcc.
  2:{ rewrite (try_except_raise _ _ _ _ ValueError s); [reflexivity|].
      rewrite run_bind, get_entry_deadline_run, Hdl.
      now rewrite run_bind, get_countdown_channel_id_run, Hcc. }
  destruct (stored_int "countdown_message_id" (db s)) as [message_id|] eqn:Hmid.
  2:{ rewrite (try_except_raise _ _ _ _ ValueError s); [reflexivity|].
      rewrite run_bind, get_entry_deadline_run, Hdl.
      rewrite run_bind, get_countdown_channel_id_run, Hcc. cbn [of_option].
      cbv zeta.
      now rewrite run_bind, get_countdown_message_id_run, Hmid. }
  apply try_except_ok.
  rewrite run_bind, get_entry_deadline_run, Hdl.
  rewrite run_bind, get_countdown_channel_id_run, Hcc. cbn [of_option]. cbv zeta.
  rewrite run_bind, get_countdown_message_id_run, Hmid. cbn [of_option].
  unfold countdown_channel.
  destruct (default CHANNEL_ID (truthy_int configured) =? 0); [reflexivity|].
  rewrite run_bind. unfold get_world at 1.
  destruct (channels (world s) !! default CHANNEL_ID (truthy_int configured))
    as [msgs|] eqn:Hch; cbn [fmap option_fmap option_map]; [|reflexivity].
  rewrite run_bind. unfold datetime_fromisoformat. rewrite Ht, run_ret.
  replace (t <=? now) with true by (symmetry; now apply Z.leb_le).
  destruct (truthy_int message_id) as [m|]; [|reflexivity].
  rewrite final_edit_run. unfold channel_messages at 1. rewrite Hch. reflexivity.
Qed.

(** *** Who writes which setting *)

(** A computation that leaves the setting [k] as it finds it. *)
Definition keeps (k : string) {A} (m : M A) : Prop :=
  forall s, settings (db (m s).2) !! k = settings (db s) !! k.

(** The settings that carry the lifecycle of the contest. *)
Definition lifecycle_setting (k : string) : Prop :=
  k = "contest_open"%string \/ k = "current_contest_id"%string
  \/ k = "winner_picked"%string \/ k = "fob_system"%string.

Section Keeps.

Variable k : string.

Lemma keeps_ret {A} (a : A) : keeps k (mret a : M A).
Proof. intros s. reflexivity. Qed.

Lemma keeps_raise {A} e : keeps k (raise e : M A).
Proof. intros s. reflexivity. Qed.

Lemma keeps_get_db : keeps k get_db.
Proof. intros s. reflexivity. Qed.

Lemma keeps_get_world : keeps k get_world.
Proof. intros s. reflexivity. Qed.

Lemma keeps_put_world w : keeps k (put_world w).
Proof. intros s. reflexivity. Qed.

Lemma keeps_log_record r : keeps k (log_record r).
Proof. intros s. reflexivity. Qed.

Lemma keeps_bind {A B} (m : M A) (f : A -> M B) :
  keeps k m -> (forall a, keeps k (f a)) -> keeps k (m ≫= f).
Proof.
  intros Hm Hf s. rewrite run_bind. specialize (Hm s).
  destruct (m s) as [[a|e] s1]; cbn [snd] in *; [|exact Hm].
  now rewrite Hf.
Qed.

Lemma keeps_fmap {A B} (g : A -> B) (m : M A) :
  keeps k m -> keeps k (g <$> m).
Proof.
  intros Hm s. specialize (Hm s). unfold fmap, M_fmap.
  destruct (m s) as [[a|e] s1]; exact Hm.
Qed.

Lemma keeps_try_except {A} (m : M A) catches h :
  keeps k m -> (forall e, keeps k (h e)) -> keeps k (try_except m catches h).
Proof.
  intros Hm Hh s. unfold try_except. specialize (Hm s).
  destruct (m s) as [[a|e] s1]; cbn [snd] in *; [exact Hm|].
  destruct (catches e); [|exact Hm]. now rewrite Hh.
Qed.

Lemma keeps_with_db {A} name (m : M A) : keeps k m -> keeps k (with_db name m).
Proof.
  intros Hm. apply keeps_try_except; [exact Hm|].
  intros e. apply keeps_bind; [apply keeps_log_record|].
  intros _. apply keeps_raise.
Qed.

Lemma keeps_transaction {A} (m : M A) : keeps k m -> keeps k (transaction m).
Proof.
  intros Hm s. unfold transaction. specialize (Hm s).
  destruct (m s) as [[a|e] s1]; [exact Hm|reflexivity].
Qed.

Lemma keeps_upsert_setting key value :
  key <> k -> keeps k (modify_db (upsert_setting key value)).
Proof. intros Hk s. cbn. now rewrite lookup_insert_ne. Qed.

Lemma keeps_delete_setting key :
  key <> k -> keeps k (modify_db (delete_setting key)).
Proof. intros Hk s. cbn. now rewrite lookup_delete_ne. Qed.

Lemma keeps_with_entries f : keeps k (modify_db (with_entries f)).
Proof. intros s. reflexivity. Qed.

Lemma keeps_update_contest_winner u w c :
  keeps k (modify_db (update_contest_winner u w c)).
Proof. intros s. reflexivity. Qed.

Lemma keeps_exec_insert_contest opened_at : keeps k (exec_insert_contest opened_at).
Proof. intros s. reflexivity. Qed.

Lemma keeps_random_choice {A} seed (rows : list A) : keeps k (random_choice seed rows).
Proof. intros s. unfold random_choice. now destruct (rows !! _). Qed.

End Keeps.

(** The key of a write differs from the setting under watch. *)
Ltac other_key :=
  first
    [ discriminate
    | congruence
    | match goal with
      | H : lifecycle_setting _ |- _ =>
          destruct H as [-> | [-> | [-> | ->]]]; discriminate
      end ].

(** One step through a computation of the source. *)
Ltac keeps_step :=
  lazymatch goal with
  | |- keeps _ (mret _) => apply keeps_ret
  | |- keeps _ (raise _) => apply keeps_raise
  | |- keeps _ get_db => apply keeps_get_db
  | |- keeps _ get_world => apply keeps_get_world
  | |- keeps _ (put_world _) => apply keeps_put_world
  | |- keeps _ (log_record _) => apply keeps_log_record
  | |- keeps _ (exec_insert_contest _) => apply keeps_exec_insert_contest
  | |- keeps _ (random_choice _ _) => apply keeps_random_choice
  | |- keeps _ (modify_db (with_entries _)) => apply keeps_with_entries
  | |- keeps _ (modify_db (update_contest_winner _ _ _)) =>
      apply keeps_update_contest_winner
  | |- keeps _ (modify_db (upsert_setting _ _)) =>
      apply keeps_upsert_setting; other_key
  | |- keeps _ (modify_db (delete_setting _)) =>
      apply keeps_delete_setting; other_key
  | |- keeps _ (with_db _ _) => apply keeps_with_db
  | |- keeps _ (transaction _) => apply keeps_transaction
  | |- keeps _ (_ <$> _) => apply keeps_fmap
  | |- keeps _ (_ ≫= _) => apply keeps_bind; [|intros ?]
  | |- keeps _ (try_except _ _ _) => apply keeps_try_except; [|intros ?]
  | |- keeps _ (if ?b then _ else _) => destruct b
  | |- keeps _ (match ?x with _ => _ end) => destruct x
  | |- keeps _ (let _ := _ in _) => cbv zeta
  end.

Create HintDb keeps_db.

#[local] Hint Extern 2 (_ <> _) => other_key : keeps_db.

Ltac keeps_auto := repeat first [ keeps_step | solve [auto with keeps_db] ].

(** Reading keeps every setting. *)

Lemma keeps_select_setting k key : keeps k (select_setting key).
Proof. unfold select_setting. keeps_auto. Qed.

Lemma keeps_int k v : keeps k (int v).
Proof. unfold int. keeps_auto. Qed.

Lemma keeps_datetime_fromisoformat k v : keeps k (datetime_fromisoformat v).
Proof. unfold datetime_fromisoformat. keeps_auto. Qed.

Lemma keeps_datetime_strptime k v : keeps k (datetime_strptime v).
Proof. unfold datetime_strptime. keeps_auto. Qed.

#[local] Hint Resolve keeps_select_setting keeps_int keeps_datetime_fromisoformat
  keeps_datetime_strptime : keeps_db.

Lemma keeps_get_current_contest_id k : keeps k get_current_contest_id.
Proof. unfold get_current_contest_id. keeps_auto. Qed.
#[local] Hint Resolve keeps_get_current_contest_id : keeps_db.

Lemma keeps_get_entry_deadline k : keeps k get_entry_deadline.
Proof. unfold get_entry_deadline. keeps_auto. Qed.
#[local] Hint Resolve keeps_get_entry_deadline : keeps_db.

Lemma keeps_is_past_deadline k now : keeps k (is_past_deadline now).
Proof. unfold is_past_deadline. keeps_auto. Qed.

Lemma keeps_is_contest_open k : keeps k is_contest_open.
Proof. unfold is_contest_open. keeps_auto. Qed.

Lemma keeps_is_winner_picked k : keeps k is_winner_picked.
Proof. unfold is_winner_picked. keeps_auto. Qed.

Lemma keeps_get_user_entry k u : keeps k (get_user_entry u).
Proof. unfold get_user_entry. keeps_auto. Qed.

Lemma keeps_is_system_taken k n : keeps k (is_system_taken n).
Proof. unfold is_system_taken. keeps_auto. Qed.

Lemma keeps_get_prizes_list k : keeps k get_prizes_list.
Proof. unfold get_prizes_list, get_prizes_text. keeps_auto. Qed.

Lemma keeps_get_fob_system k : keeps k get_fob_system.
Proof. unfold get_fob_system. keeps_auto. Qed.

Lemma keeps_get_contest_open_date k c : keeps k (get_contest_open_date c).
Proof. unfold get_contest_open_date. keeps_auto. Qed.

Lemma keeps_get_total_entries k : keeps k get_total_entries_for_current_contest.
Proof. unfold get_total_entries_for_current_contest. keeps_auto. Qed.

Lemma keeps_get_current_winner_info k : keeps k get_current_winner_info.
Proof. unfold get_current_winner_info. keeps_auto. Qed.

Lemma keeps_get_countdown_message_id k : keeps k get_countdown_message_id.
Proof. unfold get_countdown_message_id. keeps_auto. Qed.

Lemma keeps_get_countdown_channel_id k : keeps k get_countdown_channel_id.
Proof. unfold get_countdown_channel_id. keeps_auto. Qed.

(** The channel operations and the entries table are no settings. *)

Lemma keeps_fetch_message k c m : keeps k (fetch_message c m).
Proof. unfold fetch_message. keeps_auto. Qed.

Lemma keeps_edit_message k c m e : keeps k (edit_message c m e).
Proof. unfold edit_message. keeps_auto. Qed.

Lemma keeps_delete_message k c m : keeps k (delete_message c m).
Proof. unfold delete_message. keeps_auto. Qed.

Lemma keeps_send_message k c e : keeps k (send_message c e).
Proof. unfold send_message. keeps_auto. Qed.

Lemma keeps_set_user_entry k now u n : keeps k (set_user_entry now u n).
Proof. unfold set_user_entry. keeps_auto. Qed.

#[local] Hint Resolve keeps_is_past_deadline keeps_is_contest_open
  keeps_is_winner_picked keeps_get_user_entry keeps_is_system_taken
  keeps_get_prizes_list keeps_get_fob_system keeps_get_contest_open_date
  keeps_get_total_entries keeps_get_current_winner_info
  keeps_get_countdown_message_id keeps_get_countdown_channel_id
  keeps_fetch_message keeps_edit_message keeps_delete_message
  keeps_send_message keeps_set_user_entry : keeps_db.

(** Each setter writes its own setting. *)

Lemma keeps_set_contest_open k flag :
  k <> "contest_open"%string -> keeps k (set_contest_open flag).
Proof. intros H. unfold set_contest_open. keeps_auto. Qed.

Lemma keeps_set_fob_system k n :
  k <> "fob_system"%string -> keeps k (set_fob_system n).
Proof. intros H. unfold set_fob_system. keeps_auto. Qed.

Lemma keeps_set_winner_picked k p :
  k <> "winner_picked"%string -> keeps k (set_winner_picked p).
Proof. intros H. unfold set_winner_picked, WINNER_PICKED_KEY. keeps_auto. Qed.

Lemma keeps_set_prizes_list k p : lifecycle_setting k -> keeps k (set_prizes_list p).
Proof. intros H. unfold set_prizes_list, set_prizes_text. keeps_auto. Qed.

Lemma keeps_set_entry_deadline k d : lifecycle_setting k -> keeps k (set_entry_deadline d).
Proof. intros H. unfold set_entry_deadline. destruct d; keeps_auto. Qed.

Lemma keeps_set_countdown_message_id k m :
  lifecycle_setting k -> keeps k (set_countdown_message_id m).
Proof. intros H. unfold set_countdown_message_id. destruct m; keeps_auto. Qed.

Lemma keeps_set_countdown_channel_id k c :
  lifecycle_setting k -> keeps k (set_countdown_channel_id c).
Proof. intros H. unfold set_countdown_channel_id. keeps_auto. Qed.

#[local] Hint Resolve keeps_set_prizes_list keeps_set_entry_deadline
  keeps_set_countdown_message_id keeps_set_countdown_channel_id : keeps_db.

(** The countdown loop and the commands outside the lifecycle keep the
    lifecycle settings. *)

Lemma keeps_update_countdown k now :
  lifecycle_setting k -> keeps k (update_countdown now).
Proof. intros H. unfold update_countdown. keeps_auto. Qed.

Lemma keeps_enter k now u n : keeps k (enter now u n).
Proof. unfold enter, enter_store. keeps_auto. Qed.

Lemma keeps_endcontest k a c : keeps k (endcontest a c).
Proof. unfold endcontest. keeps_auto. Qed.

Lemma keeps_listentries k a : keeps k (listentries a).
Proof. unfold listentries. keeps_auto. Qed.

Lemma keeps_clear_previous_countdown k :
  lifecycle_setting k -> keeps k clear_previous_countdown.
Proof. intros H. unfold clear_previous_countdown. keeps_auto. Qed.
#[local] Hint Resolve keeps_clear_previous_countdown : keeps_db.

Lemma keeps_DeadlineModal_on_submit k i o c d now :
  lifecycle_setting k -> keeps k (DeadlineModal_on_submit i o c d now).
Proof. intros H. unfold DeadlineModal_on_submit. keeps_auto. Qed.

Lemma keeps_setdeadline k a d c : lifecycle_setting k -> keeps k (setdeadline a d c).
Proof. intros H. unfold setdeadline. keeps_auto. Qed.

Lemma keeps_cleardeadline k a : lifecycle_setting k -> keeps k (cleardeadline a).
Proof. intros H. unfold cleardeadline. keeps_auto. Qed.

Lemma keeps_SetPrizesModal_on_submit k c p1 p2 p3 p4 :
  lifecycle_setting k -> keeps k (SetPrizesModal_on_submit c p1 p2 p3 p4).
Proof. intros H. unfold SetPrizesModal_on_submit. keeps_auto. Qed.

Lemma keeps_read_only k :
  keeps k prizes /\ (forall u, keeps k (myguess u))
  /\ keeps k conteststatus /\ keeps k contesthistory
  /\ keeps k pastwinners /\ (forall a, keeps k (setprizes a))
  /\ (forall a, keeps k (backupdb a)).
Proof.
  repeat split; intros;
    unfold prizes, myguess, conteststatus, contesthistory, pastwinners,
      setprizes, backupdb; keeps_auto.
Qed.

(** The lifecycle commands: what they keep all the same. *)

Lemma keeps_opencontest k a :
  k <> "contest_open"%string -> keeps k (opencontest a).
Proof.
  intros H. unfold opencontest. keeps_auto. now apply keeps_set_contest_open.
Qed.

Lemma keeps_newcontest_denied k now c : keeps k (newcontest false now c).
Proof. unfold newcontest. cbn [negb]. keeps_auto. Qed.

Lemma keeps_EndContestModal_on_submit k contest_id channel_id input seed :
  k <> "contest_open"%string -> k <> "fob_system"%string ->
  k <> "winner_picked"%string ->
  keeps k (EndContestModal_on_submit contest_id channel_id input seed).
Proof.
  intros H1 H2 H3. unfold EndContestModal_on_submit.
  repeat first
    [ keeps_step
    | apply keeps_set_contest_open; assumption
    | apply keeps_set_fob_system; assumption
    | apply keeps_set_winner_picked; assumption
    | solve [auto with keeps_db] ].
Qed.

(** A store that [init_db] has bootstrapped is left alone by a restart. *)
Definition bootstrapped (s : State) : Prop :=
  is_Some (settings (db s) !! "current_contest_id").

Lemma init_db_bootstrapped now s :
  bootstrapped s -> init_db now s = (Ok tt, s).
Proof.
  intros [v Hv]. apply with_db_ok. unfold transaction.
  now rewrite run_bind, select_setting_run, Hv.
Qed.

Lemma insert_setting_run key value s :
  insert_setting key value s
  = match settings (db s) !! key with
    | Some _ => (Raise IntegrityError, s)
    | None => (Ok tt, update_db (upsert_setting key value) s)
    end.
Proof.
  unfold insert_setting. rewrite run_bind. unfold get_db at 1.
  now destruct (settings (db s) !! key).
Qed.

Lemma init_db_bootstraps now s :
  (init_db now s).1 = Ok tt -> bootstrapped (init_db now s).2.
Proof.
  destruct (settings (db s) !! "current_contest_id") as [v|] eqn:Hcur.
  { intros _. rewrite init_db_bootstrapped by (red; eauto). red. eauto. }
  intros Hok. destruct (init_db now s) as [r s'] eqn:E.
  cbn [fst snd] in *. subst r. revert E.
  unfold init_db, with_db, try_except, transaction.
  rewrite run_bind, select_setting_run, Hcur.
  rewrite run_bind. unfold exec_insert_contest at 1.
  rewrite run_bind. unfold get_db at 1.
  destruct (insert_contest (isoformat now) (db s)) as [contest_id d'] eqn:Hins.
  rewrite run_bind, modify_db_run, run_ret.
  rewrite run_bind, insert_setting_run.
  destruct (settings (db (update_db (fun _ => d') s)) !! "current_contest_id");
    [discriminate|].
  rewrite run_bind, insert_setting_run.
  destruct (settings (db (update_db _ (update_db (fun _ => d') s))) !! "contest_open");
    [discriminate|].
  rewrite insert_setting_run. unfold WINNER_PICKED_KEY.
  destruct (settings (db (update_db _ (update_db _ (update_db (fun _ => d') s))))
              !! "winner_picked"); [discriminate|].
  intros E. injection E as <-. red.
  cbn [db update_db upsert_setting with_settings settings].
  rewrite !lookup_insert_ne by discriminate.
  rewrite lookup_insert_eq. eauto.
Qed.

Lemma keeps_apply k {A} (m : M A) s :
  keeps k m -> settings (db (m s).2) !! k = settings (db s) !! k.
Proof. intros H. apply H. Qed.

(** Outside the lifecycle commands, and outside the first start of the
    process, the lifecycle settings are not written. *)
Lemma keeps_handle k c s :
  lifecycle_setting k ->
  bootstrapped s ->
  match c with
  | EndContestSubmit _ _ _ _ | OpenContest true | NewContest true _ _ => False
  | _ => True
  end ->
  settings (db (after c s)) !! k = settings (db s) !! k.
Proof.
  intros Hk Hb Hc. unfold after.
  destruct (keeps_read_only k) as (K1 & K2 & K3 & K4 & K5 & K6 & K7).
  destruct c; try contradiction; cbn [handle];
    try match goal with a : bool |- _ => destruct a end;
    try contradiction.
  1:{ rewrite run_bind, init_db_bootstrapped by assumption. reflexivity. }
  all: apply keeps_apply;
       repeat keeps_step;
       lazymatch goal with
       | |- keeps _ prizes => exact K1
       | |- keeps _ (myguess _) => apply K2
       | |- keeps _ conteststatus => exact K3
       | |- keeps _ contesthistory => exact K4
       | |- keeps _ pastwinners => exact K5
       | |- keeps _ (setprizes _) => apply K6
       | |- keeps _ (backupdb _) => apply K7
       | |- keeps _ (enter _ _ _) => apply keeps_enter
       | |- keeps _ (SetPrizesModal_on_submit _ _ _ _ _) =>
           now apply keeps_SetPrizesModal_on_submit
       | |- keeps _ (endcontest _ _) => apply keeps_endcontest
       | |- keeps _ (opencontest false) =>
           unfold opencontest; cbn [negb]; apply keeps_ret
       | |- keeps _ (listentries _) => apply keeps_listentries
       | |- keeps _ (newcontest false _ _) => apply keeps_newcontest_denied
       | |- keeps _ (DeadlineModal_on_submit _ _ _ _ _) =>
           now apply keeps_DeadlineModal_on_submit
       | |- keeps _ (setdeadline _ _ _) => now apply keeps_setdeadline
       | |- keeps _ (cleardeadline _) => now apply keeps_cleardeadline
       | |- keeps _ (update_countdown _) => now apply keeps_update_countdown
       end.
Qed.


(** ** Properties of the contest workflow *)

(** *** /enter *)

Lemma enter_not_allowed_run now user_id system s :
  is_allowed_fob_system (normalize_system_name system) = false ->
  enter now user_id system s = (Ok InvalidSystem, s).
Proof. intros Ha. unfold enter. cbv zeta. now rewrite Ha. Qed.

Lemma enter_closed_run now user_id system s :
  is_allowed_fob_system (normalize_system_name system) = true ->
  contest_open_flag (db s) = false ->
  enter now user_id system s = (Ok ContestClosed, s).
Proof.
  intros Ha Ho. unfold enter. cbv zeta. rewrite Ha. cbn [negb].
  now rewrite run_bind, is_contest_open_run, Ho.
Qed.

Lemma enter_past_deadline_run now user_id system s :
  is_allowed_fob_system (normalize_system_name system) = true ->
  contest_open_flag (db s) = true ->
  deadline_passed now (db s) = Some true ->
  exists ts, enter now user_id system s = (Ok (DeadlinePassed ts), s).
Proof.
  intros Ha Ho Hd. unfold enter. cbv zeta. rewrite Ha. cbn [negb].
  rewrite run_bind, is_contest_open_run, Ho. cbn [negb].
  rewrite run_bind, is_past_deadline_run, Hd. cbn [of_option].
  rewrite run_bind, get_entry_deadline_run.
  unfold deadline_passed in Hd.
  destruct (settings (db s) !! "entry_deadline") as [dl|]; [|discriminate].
  destruct dl as [|c dl]; [now eexists|]. cbn [truthy_str].
  rewrite run_bind. unfold datetime_fromisoformat.
  destruct (fromisoformat (c :: dl)); [now eexists|discriminate].
Qed.

Lemma enter_store_run now user_id system_norm s cid :
  current_contest_id (db s) = Some cid ->
  enter_store now user_id system_norm s
  = match upsert_entry (new_entry now cid user_id system_norm)
            (contest_entries (db s)) with
    | Some es => (Ok (EntryRecorded system_norm),
                  update_db (with_entries (fun _ => es)) s)
    | None => (Raise IntegrityError,
               add_log (LogException "set_user_entry" IntegrityError) s)
    end.
Proof.
  intros H. unfold enter_store.
  rewrite run_bind, (set_user_entry_run _ _ _ _ _ H).
  destruct (upsert_entry _ _); reflexivity.
Qed.

(** C1.  The checks of [enter] run in the order allow-list, open flag,
    deadline, own earlier entry, system taken; the first one that fails
    decides the answer and leaves the store as it was; when all pass, the
    entry of the user is upserted into the current contest. *)
Theorem enter_checks_in_order (now user_id : Z) (system : pystr) (s : State) :
  let system_norm := normalize_system_name system in
  let run := enter now user_id system s in
  (is_allowed_fob_system system_norm = false ->
     run = (Ok InvalidSystem, s))
  /\ (is_allowed_fob_system system_norm = true ->
      contest_open_flag (db s) = false ->
     run = (Ok ContestClosed, s))
  /\ (is_allowed_fob_system system_norm = true ->
      contest_open_flag (db s) = true ->
      deadline_passed now (db s) = Some true ->
     exists ts, run = (Ok (DeadlinePassed ts), s))
  /\ (forall cid previous,
      is_allowed_fob_system system_norm = true ->
      contest_open_flag (db s) = true ->
      deadline_passed now (db s) = Some false ->
      current_contest_id (db s) = Some cid ->
      user_entry cid user_id (db s) = Some previous ->
     run = (Ok (DuplicateUser previous), s))
  /\ (forall cid,
      is_allowed_fob_system system_norm = true ->
      contest_open_flag (db s) = true ->
      deadline_passed now (db s) = Some false ->
      current_contest_id (db s) = Some cid ->
      user_entry cid user_id (db s) = None ->
      system_taken cid system_norm (db s) = true ->
     run = (Ok (SystemTaken system_norm), s))
  /\ (forall cid,
      is_allowed_fob_system system_norm = true ->
      contest_open_flag (db s) = true ->
      deadline_passed now (db s) = Some false ->
      current_contest_id (db s) = Some cid ->
      user_entry cid user_id (db s) = None ->
      system_taken cid system_norm (db s) = false ->
     upsert_entry (new_entry now cid user_id system_norm) (contest_entries (db s))
     = Some (contest_entries (db s) ++ [new_entry now cid user_id system_norm])
     /\ run = (Ok (EntryRecorded system_norm),
               update_db (with_entries
                 (fun es => es ++ [new_entry now cid user_id system_norm])) s)).
Proof.
  intros system_norm run. subst run. unfold enter. fold system_norm. cbv zeta.
  repeat split.
  - intros Ha. now rewrite <- (enter_not_allowed_run now user_id system s Ha).
  - intros Ha Ho. now rewrite <- (enter_closed_run now user_id system s Ha Ho).
  - intros Ha Ho Hd.
    destruct (enter_past_deadline_run now user_id system s Ha Ho Hd) as [ts E].
    exists ts. rewrite <- E. unfold enter. reflexivity.
  - intros cid previous Ha Ho Hd Hc Hu. rewrite Ha. cbn [negb].
    rewrite run_bind, is_contest_open_run, Ho. cbn [negb].
    rewrite run_bind, is_past_deadline_run, Hd. cbn [of_option].
    now rewrite run_bind, (get_user_entry_run _ _ _ Hc), Hu.
  - intros cid Ha Ho Hd Hc Hu Ht. rewrite Ha. cbn [negb].
    rewrite run_bind, is_contest_open_run, Ho. cbn [negb].
    rewrite run_bind, is_past_deadline_run, Hd. cbn [of_option].
    rewrite run_bind, (get_user_entry_run _ _ _ Hc), Hu.
    now rewrite run_bind, (is_system_taken_run _ _ _ Hc), Ht.
  - now apply upsert_entry_fresh.
  - rename H into Ha, H0 into Ho, H1 into Hd, H2 into Hc, H3 into Hu, H4 into Ht.
    rewrite Ha. cbn [negb].
    rewrite run_bind, is_contest_open_run, Ho. cbn [negb].
    rewrite run_bind, is_past_deadline_run, Hd. cbn [of_option].
    rewrite run_bind, (get_user_entry_run _ _ _ Hc), Hu.
    rewrite run_bind, (is_system_taken_run _ _ _ Hc), Ht.
    rewrite (enter_store_run _ _ _ _ _ Hc).
    now rewrite (upsert_entry_fresh _ _ _ _ _ Hu Ht).
Qed.

(** C3 (amended).  The write step of [enter] does not translate a violation
    of UNIQUE (contest_id, system_name): [set_user_entry] logs the SQLite
    error and raises it again, [enter] has no handler, and the error reaches
    the caller with the database unchanged.  Without a violation the entry
    is stored and the answer is [EntryRecorded]. *)
Theorem enter_store_unique_violation_propagates
    (now user_id : Z) (system_norm : pystr) (s : State) (cid : Z) :
  current_contest_id (db s) = Some cid ->
  let row := new_entry now cid user_id system_norm in
  (unique_violation row (contest_entries (db s)) = true ->
     enter_store now user_id system_norm s
     = (Raise IntegrityError,
        add_log (LogException "set_user_entry" IntegrityError) s)
     /\ db (enter_store now user_id system_norm s).2 = db s)
  /\ (unique_violation row (contest_entries (db s)) = false ->
      exists es,
        upsert_entry row (contest_entries (db s)) = Some es
        /\ enter_store now user_id system_norm s
           = (Ok (EntryRecorded system_norm),
              update_db (with_entries (fun _ => es)) s)).
Proof.
  intros Hc row. rewrite (enter_store_run _ _ _ _ _ Hc). fold row.
  unfold upsert_entry. split; intros Hv; rewrite Hv.
  - split; reflexivity.
  - destruct (existsb _ _); eexists; split; reflexivity.
Qed.

(** *** /opencontest *)

(** C8.  Re-opening a closed contest without a winner writes the
    [contest_open] setting and nothing else. *)
Theorem opencontest_flips_open_flag_only (s : State) :
  winner_picked_flag (db s) = false ->
  contest_open_flag (db s) = false ->
  let s' := (opencontest true s).2 in
  opencontest true s
  = (Ok Reopened, update_db (upsert_setting "contest_open" (lit "1")) s)
  /\ contest_open_flag (db s') = true
  /\ (forall key : string, key <> "contest_open"%string ->
        settings (db s') !! key = settings (db s) !! key)
  /\ contest_entries (db s') = contest_entries (db s)
  /\ contests (db s') = contests (db s)
  /\ contests_seq (db s') = contests_seq (db s)
  /\ world s' = world s
  /\ log s' = log s.
Proof.
  intros Hw Ho s'.
  assert (E : opencontest true s
              = (Ok Reopened, update_db (upsert_setting "contest_open" (lit "1")) s)).
  { unfold opencontest. cbn [negb].
    rewrite run_bind, is_winner_picked_run, Hw.
    rewrite run_bind, is_contest_open_run, Ho.
    now rewrite run_bind, set_contest_open_run. }
  subst s'. rewrite E. cbn [snd]. repeat split.
  - unfold contest_open_flag. cbn. now rewrite lookup_insert_eq.
  - intros key Hk. cbn. now rewrite lookup_insert_ne.
Qed.

(** *** /listentries *)

(** C10.  While the [contest_open] flag is false, [listentries] refuses
    whatever the entries table holds; entries are listed only while the
    flag is true. *)
Theorem listentries_closed_refuses (s : State) :
  (contest_open_flag (db s) = false ->
     listentries true s = (Ok ListClosed, s)
     /\ forall es,
          let s_es := update_db (with_entries (fun _ => es)) s in
          listentries true s_es = (Ok ListClosed, s_es))
  /\ (forall a rows s',
        listentries a s = (Ok (EntriesListed rows), s') ->
        contest_open_flag (db s) = true).
Proof.
  split.
  - intros Ho. split.
    + unfold listentries. cbn [negb].
      now rewrite run_bind, is_contest_open_run, Ho.
    + intros es s_es. unfold listentries. cbn [negb].
      rewrite run_bind, is_contest_open_run.
      replace (contest_open_flag (db s_es)) with false; reflexivity.
  - intros a rows s'. unfold listentries.
    destruct a; cbn [negb]; [|discriminate].
    rewrite run_bind, is_contest_open_run.
    destruct (contest_open_flag (db s)); [reflexivity|discriminate].
Qed.

(** *** /endcontest *)

(** The entries of a contest that guessed the system. *)
Definition matching_entries (contest_id : Z) (system_norm : pystr) (d : DB) : list Entry :=
  filter (fun e => same_system contest_id system_norm e = true) (contest_entries d).

(** The store once the contest is closed and the FOB system recorded. *)
Definition closed_with (system_norm : pystr) (s : State) : State :=
  update_db (upsert_setting "fob_system" system_norm)
    (update_db (upsert_setting "contest_open" (lit "0")) s).

Lemma closed_with_flags system_norm s :
  contest_open_flag (db (closed_with system_norm s)) = false
  /\ settings (db (closed_with system_norm s)) !! "fob_system" = Some system_norm
  /\ settings (db (closed_with system_norm s)) !! "winner_picked"
     = settings (db s) !! "winner_picked"
  /\ settings (db (closed_with system_norm s)) !! "current_contest_id"
     = settings (db s) !! "current_contest_id".
Proof.
  unfold contest_open_flag. cbn. repeat split.
  - rewrite lookup_insert_ne by discriminate. now rewrite lookup_insert_eq.
  - now rewrite lookup_insert_eq.
  - now rewrite !lookup_insert_ne by discriminate.
  - now rewrite !lookup_insert_ne by discriminate.
Qed.

(** C5.  When the guards of [endcontest] pass and the submitted FOB system
    is allowed but matches no entry of the contest, the contest is closed
    and the system recorded, while [winner_picked] stays false and the
    contests table is not written. *)
Theorem endcontest_without_match
    (channel_id : Z) (fob_system_input : pystr) (seed : nat) (s : State) (cid : Z) :
  endcontest true channel_id s = (Ok (ShowEndContestModal cid channel_id), s) ->
  let system_norm := normalize_system_name fob_system_input in
  is_allowed_fob_system system_norm = true ->
  matching_entries cid system_norm (db s) = [] ->
  let s' := closed_with system_norm s in
  EndContestModal_on_submit cid channel_id fob_system_input seed s
  = (Ok (EndedNoWinner cid system_norm), s')
  /\ contest_open_flag (db s') = false
  /\ settings (db s') !! "fob_system" = Some system_norm
  /\ winner_picked_flag (db s') = false
  /\ contests (db s') = contests (db s)
  /\ contest_entries (db s') = contest_entries (db s).
Proof.
  intros Hg system_norm Ha Hm s'.
  apply endcontest_guards in Hg as (_ & _ & _ & Hw & _).
  destruct (closed_with_flags system_norm s) as (Ho & Hf & Hp & _).
  repeat split; try assumption.
  - apply try_except_ok. fold system_norm. cbv zeta. rewrite Ha. cbn [negb].
    rewrite run_bind, set_contest_open_run.
    rewrite run_bind, set_fob_system_run.
    rewrite run_bind. unfold get_db at 1.
    change (contest_entries (db _)) with (contest_entries (db s)).
    fold (matching_entries cid system_norm (db s)). rewrite Hm. reflexivity.
  - unfold winner_picked_flag in *. fold s' in Hp. now rewrite Hp.
Qed.

(** The store once a winner is written, too. *)
Definition won_by (winner_user_id : Z) (system_norm : pystr) (contest_id : Z)
    (s : State) : State :=
  update_db (update_contest_winner winner_user_id system_norm contest_id)
    (update_db (upsert_setting "winner_picked" (lit "1"))
       (closed_with system_norm s)).

Lemma EndContestModal_match_run channel_id fob_system_input seed s cid winner :
  let system_norm := normalize_system_name fob_system_input in
  let matches := matching_entries cid system_norm (db s) in
  is_allowed_fob_system system_norm = true ->
  matches !! (seed mod length matches)%nat = Some winner ->
  exists prizes,
    EndContestModal_on_submit cid channel_id fob_system_input seed s
    = (Ok (EndedWithWinner cid system_norm (e_user_id winner) prizes),
       won_by (e_user_id winner) system_norm cid s).
Proof.
  intros system_norm matches Ha Hw.
  set (s' := won_by (e_user_id winner) system_norm cid s).
  destruct (get_prizes_list_run s') as [prizes Hp].
  exists prizes.
  apply try_except_ok. fold system_norm. cbv zeta. rewrite Ha. cbn [negb].
  rewrite run_bind, set_contest_open_run.
  rewrite run_bind, set_fob_system_run.
  rewrite run_bind. unfold get_db at 1.
  change (contest_entries (db _)) with (contest_entries (db s)).
  fold (matching_entries cid system_norm (db s)). fold matches.
  destruct (map _ matches) as [|r rs] eqn:Er.
  { destruct matches; [discriminate Hw|discriminate Er]. }
  rewrite <- Er. clear Er.
  rewrite run_bind. unfold random_choice.
  rewrite length_map, list_lookup_fmap, Hw. cbn [fmap option_fmap option_map].
  rewrite run_ret.
  rewrite run_bind, set_winner_picked_run.
  rewrite run_bind, modify_db_run.
  fold (closed_with system_norm s). fold (won_by (e_user_id winner) system_norm cid s).
  fold s'. now rewrite run_bind, Hp.
Qed.

(** C2.  When the guards of [endcontest] pass and the submitted FOB system
    is allowed and matches entries of the contest, the winner is the entry
    at the position the generator draws among exactly those entries, and
    every one of them wins for the draw of its own position (a uniform draw
    makes them equally likely); the contest is closed, the system recorded,
    [winner_picked] set, and the winner written on the row of the contest. *)
Theorem endcontest_with_match
    (channel_id : Z) (fob_system_input : pystr) (seed : nat) (s : State) (cid : Z) :
  endcontest true channel_id s = (Ok (ShowEndContestModal cid channel_id), s) ->
  let system_norm := normalize_system_name fob_system_input in
  is_allowed_fob_system system_norm = true ->
  let matches := matching_entries cid system_norm (db s) in
  matches <> [] ->
  (exists winner prizes,
    matches !! (seed mod length matches)%nat = Some winner
    /\ e_contest_id winner = cid
    /\ e_system_name winner = system_norm
    /\ let s' := won_by (e_user_id winner) system_norm cid s in
       EndContestModal_on_submit cid channel_id fob_system_input seed s
       = (Ok (EndedWithWinner cid system_norm (e_user_id winner) prizes), s')
       /\ contest_open_flag (db s') = false
       /\ settings (db s') !! "fob_system" = Some system_norm
       /\ winner_picked_flag (db s') = true
       /\ current_contest_id (db s') = Some cid
       /\ contest_entries (db s') = contest_entries (db s)
       /\ contests (db s')
          = map (fun c =>
                   if c_id c =? cid
                   then {| c_id := c_id c; c_opened_at := c_opened_at c;
                           c_winner_user_id := Some (e_user_id winner);
                           c_winner_system := Some system_norm |}
                   else c) (contests (db s))
       /\ ((exists c, c ∈ contests (db s) /\ c_id c = cid) ->
           get_current_winner_info s'
           = (Ok (Some (e_user_id winner), Some system_norm), s')))
  /\ (forall position entry,
        matches !! position = Some entry ->
        exists prizes,
          EndContestModal_on_submit cid channel_id fob_system_input position s
          = (Ok (EndedWithWinner cid system_norm (e_user_id entry) prizes),
             won_by (e_user_id entry) system_norm cid s)).
Proof.
  intros Hg system_norm Ha matches Hne.
  apply endcontest_guards in Hg as (_ & _ & _ & _ & _ & Hc & _).
  split.
  2:{ intros position entry Hpos.
      apply (EndContestModal_match_run channel_id fob_system_input position s cid entry Ha).
      fold system_norm. fold matches.
      rewrite Nat.mod_small; [exact Hpos|].
      eapply lookup_lt_Some. exact Hpos. }
  assert (Hlt : (seed mod length matches < length matches)%nat).
  { apply Nat.mod_upper_bound. destruct matches; [contradiction|discriminate]. }
  destruct (lookup_lt_is_Some_2 _ _ Hlt) as [winner Hw].
  assert (Hin : winner ∈ matches) by (eapply list_elem_of_lookup_2; exact Hw).
  apply list_elem_of_filter in Hin as [Hsame _].
  unfold same_system in Hsame. apply andb_true_iff in Hsame as [Hcid Hsys].
  apply Z.eqb_eq in Hcid. apply bool_decide_eq_true in Hsys.
  set (s' := won_by (e_user_id winner) system_norm cid s).
  destruct (EndContestModal_match_run channel_id fob_system_input seed s cid
              winner Ha Hw) as [prizes Hrun].
  destruct (closed_with_flags system_norm s) as (Ho & Hf & _ & Hcur).
  assert (Hc' : current_contest_id (db s') = Some cid).
  { unfold current_contest_id in *. cbn.
    rewrite lookup_insert_ne by discriminate.
    cbn in Hcur. now rewrite Hcur. }
  exists winner, prizes. repeat split; try assumption.
  - unfold contest_open_flag in *. cbn. cbn in Ho.
    rewrite lookup_insert_ne by discriminate. exact Ho.
  - cbn. rewrite lookup_insert_ne by discriminate. cbn in Hf. exact Hf.
  - unfold winner_picked_flag. cbn. now rewrite lookup_insert_eq.
  - intros Hex. fold s'. rewrite (get_current_winner_info_run _ _ Hc').
    destruct (find_updated_winner (e_user_id winner) system_norm cid
                (contests (db s)) Hex) as (row & Hfind & Hu & Hs).
    cbn in Hfind |- *. now rewrite Hfind, Hu, Hs.
Qed.

(** *** /newcontest *)

(** The database after the committed transaction of [newcontest]. *)
Definition fresh_contest_db (now : Z) (d : DB) : DB :=
  let new_id := next_contest_id d in
  {| settings :=
       <["winner_picked" := lit "0"]>
         (<["contest_open" := lit "1"]>
            (<["current_contest_id" := py_str new_id]>
               (delete "countdown_channel_id"
                  (delete "countdown_message_id"
                     (delete "entry_deadline"
                        (<["fob_system" := lit ""]>
                           (<["contest_open" := lit "0"]> (settings d))))))));
     contest_entries := contest_entries d;
     contests := contests d ++
       [{| c_id := new_id; c_opened_at := isoformat now;
           c_winner_user_id := None; c_winner_system := None |}];
     contests_seq := new_id |}.

Lemma newcontest_run now channel_id s :
  newcontest true now channel_id s
  = (Ok (ShowDeadlineModal (next_contest_id (db s)) (isoformat now) channel_id),
     update_db (fresh_contest_db now) s).
Proof. reflexivity. Qed.

(** C4.  For an admin, [newcontest] succeeds whatever [winner_picked] says:
    one transaction inserts a contest row with an id above every existing
    id, points [current_contest_id] at it, sets [contest_open] and resets
    [winner_picked], empties [fob_system], removes the deadline and the
    countdown tracking, and leaves every entry row as it was. *)
Theorem newcontest_starts_fresh_contest (now channel_id : Z) (s : State) :
  let new_id := next_contest_id (db s) in
  let s' := update_db (fresh_contest_db now) s in
  newcontest true now channel_id s
  = (Ok (ShowDeadlineModal new_id (isoformat now) channel_id), s')
  /\ (forall c, c ∈ contests (db s) -> c_id c < new_id)
  /\ contests (db s')
     = contests (db s) ++
       [{| c_id := new_id; c_opened_at := isoformat now;
           c_winner_user_id := None; c_winner_system := None |}]
  /\ settings (db s') !! "current_contest_id" = Some (py_str new_id)
  /\ (py_int (py_str new_id) = Some new_id ->
      current_contest_id (db s') = Some new_id)
  /\ settings (db s') !! "contest_open" = Some (lit "1")
  /\ contest_open_flag (db s') = true
  /\ settings (db s') !! "winner_picked" = Some (lit "0")
  /\ winner_picked_flag (db s') = false
  /\ settings (db s') !! "fob_system" = Some (lit "")
  /\ truthy_str (settings (db s') !! "fob_system") = None
  /\ settings (db s') !! "entry_deadline" = None
  /\ settings (db s') !! "countdown_message_id" = None
  /\ settings (db s') !! "countdown_channel_id" = None
  /\ contest_entries (db s') = contest_entries (db s)
  /\ (forall cid,
        filter (fun e => e_contest_id e = cid) (contest_entries (db s'))
        = filter (fun e => e_contest_id e = cid) (contest_entries (db s))).
Proof.
  intros new_id s'.
  assert (Hcur : settings (db s') !! "current_contest_id" = Some (py_str new_id)).
  { cbn [s' db update_db fresh_contest_db settings].
    rewrite !lookup_insert_ne by discriminate. now rewrite lookup_insert_eq. }
  assert (Hopen : settings (db s') !! "contest_open" = Some (lit "1")).
  { cbn [s' db update_db fresh_contest_db settings].
    rewrite lookup_insert_ne by discriminate. now rewrite lookup_insert_eq. }
  assert (Hpick : settings (db s') !! "winner_picked" = Some (lit "0")).
  { cbn [s' db update_db fresh_contest_db settings]. now rewrite lookup_insert_eq. }
  assert (Hfob : settings (db s') !! "fob_system" = Some (lit "")).
  { cbn [s' db update_db fresh_contest_db settings].
    rewrite !lookup_insert_ne by discriminate.
    rewrite !lookup_delete_ne by discriminate. now rewrite lookup_insert_eq. }
  split; [apply newcontest_run|].
  split; [intros c; apply next_contest_id_above|].
  split; [reflexivity|].
  split; [exact Hcur|].
  split; [intros Hrt; unfold current_contest_id; now rewrite Hcur|].
  split; [exact Hopen|].
  split; [unfold contest_open_flag; now rewrite Hopen|].
  split; [exact Hpick|].
  split; [unfold winner_picked_flag; now rewrite Hpick|].
  split; [exact Hfob|].
  split; [now rewrite Hfob|].
  split.
  { cbn [s' db update_db fresh_contest_db settings].
    rewrite !lookup_insert_ne by discriminate.
    rewrite !lookup_delete_ne by discriminate. now rewrite lookup_delete_eq. }
  split.
  { cbn [s' db update_db fresh_contest_db settings].
    rewrite !lookup_insert_ne by discriminate.
    rewrite lookup_delete_ne by discriminate. now rewrite lookup_delete_eq. }
  split.
  { cbn [s' db update_db fresh_contest_db settings].
    rewrite !lookup_insert_ne by discriminate. now rewrite lookup_delete_eq. }
  split; reflexivity.
Qed.

(** *** The soft deadline and the [contest_open] flag *)

(** The admin actions of the lifecycle: the submitted [endcontest] modal,
    [opencontest] and [newcontest]. *)
Definition lifecycle_action (c : Command) : Prop :=
  match c with
  | EndContestSubmit _ _ _ _ => True
  | OpenContest true => True
  | NewContest true _ _ => True
  | _ => False
  end.

Lemma enter_rejects_past_deadline now user_id system s :
  deadline_passed now (db s) = Some true ->
  exists r, enter now user_id system s = (Ok r, s)
            /\ forall system_norm, r <> EntryRecorded system_norm.
Proof.
  intros Hd.
  destruct (is_allowed_fob_system (normalize_system_name system)) eqn:Ha.
  - destruct (contest_open_flag (db s)) eqn:Ho.
    + destruct (enter_past_deadline_run now user_id system s Ha Ho Hd) as [ts E].
      eexists. split; [exact E|discriminate].
    + eexists. split; [now apply enter_closed_run|discriminate].
  - eexists. split; [now apply enter_not_allowed_run|discriminate].
Qed.

(** Every reachable store has been bootstrapped. *)
Lemma reachable_bootstrapped s : reachable s -> bootstrapped s.
Proof.
  induction 1 as [now s0 Hok|c s Hr IH].
  - now apply init_db_bootstraps.
  - assert (Hcur : lifecycle_setting "current_contest_id")
      by (right; left; reflexivity).
    assert (Hsame : settings (db (after c s)) !! "current_contest_id"
                    = settings (db s) !! "current_contest_id"
                    -> bootstrapped (after c s)).
    { intros E. red. rewrite E. exact IH. }
    destruct c;
      try (apply Hsame; apply keeps_handle; [exact Hcur|exact IH|exact I]).
    + (* the submitted endcontest modal *)
      apply Hsame. unfold after. cbn [handle].
      apply (keeps_fmap "current_contest_id" Some).
      apply keeps_EndContestModal_on_submit; discriminate.
    + (* opencontest *)
      apply Hsame. unfold after. cbn [handle].
      apply (keeps_fmap "current_contest_id" Some).
      apply keeps_opencontest; discriminate.
    + (* newcontest *)
      destruct is_contest_admin.
      * unfold after. cbn [handle]. unfold fmap, M_fmap.
        rewrite newcontest_run. red.
        cbn [snd db update_db fresh_contest_db settings].
        rewrite !lookup_insert_ne by discriminate.
        rewrite lookup_insert_eq. eauto.
      * apply Hsame. apply keeps_handle; [exact Hcur|exact IH|exact I].
Qed.

(** C6.  Once the stored deadline has elapsed, [enter] rejects every entry
    and writes nothing, with [DeadlinePassed] for an allowed system while
    [contest_open] still reads true; the deadline check and the countdown
    loop never write [contest_open]; in every reachable state only the
    submitted [endcontest] modal, [opencontest] and [newcontest], run by an
    admin, change the setting. *)
Theorem deadline_is_a_soft_close :
  (forall now user_id system s,
      deadline_passed now (db s) = Some true ->
      (exists r, enter now user_id system s = (Ok r, s)
                 /\ forall system_norm, r <> EntryRecorded system_norm)
      /\ (is_allowed_fob_system (normalize_system_name system) = true ->
          contest_open_flag (db s) = true ->
          exists ts, enter now user_id system s = (Ok (DeadlinePassed ts), s)))
  /\ (forall now, keeps "contest_open" (is_past_deadline now))
  /\ (forall now, keeps "contest_open" (update_countdown now))
  /\ (forall c s,
        reachable s ->
        settings (db (after c s)) !! "contest_open"
        <> settings (db s) !! "contest_open" ->
        lifecycle_action c).
Proof.
  assert (Hopen : lifecycle_setting "contest_open") by (left; reflexivity).
  split; [|split; [|split]].
  - intros now user_id system s Hd. split.
    + now apply enter_rejects_past_deadline.
    + intros Ha Ho. now apply enter_past_deadline_run.
  - intros now. apply keeps_is_past_deadline.
  - intros now. now apply keeps_update_countdown.
  - intros c s Hr Hne.
    pose proof (keeps_handle "contest_open" c s Hopen (reachable_bootstrapped s Hr))
      as Hk.
    destruct c; cbn [lifecycle_action]; try exact I;
      try (exfalso; apply Hne; apply Hk; exact I).
    + destruct is_contest_admin; [exact I|].
      exfalso. apply Hne. apply Hk. exact I.
    + destruct is_contest_admin; [exact I|].
      exfalso. apply Hne. apply Hk. exact I.
Qed.

(** *** The countdown loop once the deadline has passed *)

Lemma countdown_channel_lookup configured w ch msgs :
  countdown_channel configured w = Some (ch, msgs) ->
  channels w !! ch = Some msgs /\ channel_messages w ch = msgs.
Proof.
  unfold countdown_channel, channel_messages.
  destruct (_ =? 0); [discriminate|].
  destruct (channels w !! default CHANNEL_ID (truthy_int configured))
    as [msgs'|] eqn:E; [|discriminate].
  cbn. intros H. injection H as <- <-. now rewrite E.
Qed.

Lemma untracked_tick_changes_nothing now s dl t :
  truthy_str (settings (db s) !! "entry_deadline") = Some dl ->
  fromisoformat dl = Some t ->
  t <= now ->
  settings (db s) !! "countdown_message_id" = None ->
  db (update_countdown now s).2 = db s
  /\ world (update_countdown now s).2 = world s.
Proof.
  intros Hdl Ht Hle Hnone.
  rewrite (update_countdown_elapsed_run now s dl t Hdl Ht Hle). cbn [snd].
  assert (Hmid : stored_int "countdown_message_id" (db s) = Some None)
    by (unfold stored_int; now rewrite Hnone).
  rewrite Hmid.
  destruct (stored_int "countdown_channel_id" (db s)) as [configured|];
    [|now split].
  cbn [truthy_int].
  destruct (countdown_channel configured (world s)) as [[ch msgs]|]; now split.
Qed.

(** C7 (amended).  A run of the countdown loop at or after the stored
    deadline ends normally and creates no message.  When a tracked message
    id is stored and the message can be fetched from the resolved channel,
    the message is edited to the terminal embed and the tracked id is
    cleared, and later runs with the deadline still elapsed change nothing;
    when the message can no longer be fetched, a warning is logged and the
    store keeps the tracked id; when no tracked id is stored, the run
    changes nothing. *)
Theorem countdown_tick_after_deadline (now : Z) (s : State) (dl : pystr) (t : Z) :
  truthy_str (settings (db s) !! "entry_deadline") = Some dl ->
  fromisoformat dl = Some t ->
  t <= now ->
  let s' := (update_countdown now s).2 in
  (update_countdown now s).1 = Ok tt
  /\ next_message_id (world s') = next_message_id (world s)
  /\ (forall ch, dom (channel_messages (world s') ch)
                 = dom (channel_messages (world s) ch))
  /\ settings (db s') !! "entry_deadline" = settings (db s) !! "entry_deadline"
  /\ (settings (db s) !! "countdown_message_id" = None ->
      db s' = db s /\ world s' = world s)
  /\ (forall configured ch msgs m,
        stored_int "countdown_channel_id" (db s) = Some configured ->
        countdown_channel configured (world s) = Some (ch, msgs) ->
        stored_int "countdown_message_id" (db s) = Some (Some m) ->
        m <> 0 ->
        (forall e, msgs !! m = Some e ->
           s' = deadline_reached ch m s
           /\ channel_messages (world s') ch !! m = Some DeadlineReachedEmbed
           /\ settings (db s') !! "countdown_message_id" = None
           /\ forall now', t <= now' ->
                db (update_countdown now' s').2 = db s'
                /\ world (update_countdown now' s').2 = world s')
        /\ (msgs !! m = None ->
            db s' = db s /\ world s' = world s
            /\ settings (db s') !! "countdown_message_id"
               = settings (db s) !! "countdown_message_id"
            /\ log s' = log s ++ [LogWarning "update_countdown" NotFound])).
Proof.
  intros Hdl Ht Hle s'.
  pose proof (update_countdown_elapsed_run now s dl t Hdl Ht Hle) as Hrun.
  assert (Hs' : s' = (update_countdown now s).2) by reflexivity.
  rewrite Hrun in Hs'. cbn [snd] in Hs'.
  split; [now rewrite Hrun|].
  assert (Hframe :
    next_message_id (world s') = next_message_id (world s)
    /\ (forall ch, dom (channel_messages (world s') ch)
                   = dom (channel_messages (world s) ch))
    /\ settings (db s') !! "entry_deadline" = settings (db s) !! "entry_deadline").
  { rewrite Hs'. clear Hs' Hrun.
    destruct (stored_int "countdown_channel_id" (db s)) as [configured|];
      [|now repeat split].
    destruct (stored_int "countdown_message_id" (db s)) as [message_id|];
      [|now repeat split].
    destruct (countdown_channel configured (world s)) as [[ch msgs]|] eqn:Hch;
      [|now repeat split].
    destruct (truthy_int message_id) as [m|]; [|now repeat split].
    destruct (msgs !! m) as [e|] eqn:Hm; [|now repeat split].
    apply countdown_channel_lookup in Hch as [Hch Hmsgs].
    repeat split.
    - intros ch'. unfold deadline_reached, channel_messages. cbn.
      destruct (decide (ch = ch')) as [<-|Hne].
      + rewrite lookup_insert_eq, Hch. cbn. apply dom_insert_lookup_L. eauto.
      + now rewrite lookup_insert_ne.
    - cbn. now rewrite lookup_delete_ne. }
  destruct Hframe as (Hf1 & Hf2 & Hf3).
  split; [exact Hf1|]. split; [exact Hf2|]. split; [exact Hf3|].
  split; [now apply (untracked_tick_changes_nothing now s dl t)|].
  intros configured ch msgs m Hcc Hch Hmid Hm0.
  rewrite Hcc, Hmid, Hch in Hs'.
  replace (truthy_int (Some m)) with (Some m) in Hs'.
  2:{ cbn. now rewrite (proj2 (Z.eqb_neq m 0) Hm0). }
  apply countdown_channel_lookup in Hch as [Hch Hmsgs].
  split.
  - intros e He. rewrite He in Hs'.
    assert (Hgone : settings (db s') !! "countdown_message_id" = None).
    { rewrite Hs'. cbn. now rewrite lookup_delete_eq. }
    split; [exact Hs'|]. split; [|split; [exact Hgone|]].
    + rewrite Hs'. unfold deadline_reached, channel_messages. cbn.
      rewrite lookup_insert_eq. cbn. now rewrite lookup_insert_eq.
    + intros now' Hle'.
      apply (untracked_tick_changes_nothing now' s' dl t); try assumption.
      now rewrite Hf3.
  - intros Hnone. rewrite Hnone in Hs'. rewrite Hs'. now repeat split.
Qed.

End Workflow.

(** ** Runs on concrete stores *)

Module Examples.

(** [int] on a canonical decimal numeral. *)
Definition decimal (s : pystr) : option Z :=
  if is_ascii_str s
  then Z.of_int <$> DecimalString.NilZero.int_of_string
                      (string_of_list_ascii (map ascii_of_N s))
  else None.

(** A runtime to run the examples with: a datetime is written as the decimal
    numeral of its microseconds. *)
Definition sample_runtime : Runtime :=
  {| CHANNEL_ID := 1000;
     py_int := decimal;
     isoformat := py_str;
     fromisoformat := decimal;
     strptime := decimal;
     json_dumps := join (lit ",");
     json_loads_list := fun _ => None |}.

#[local] Existing Instance sample_runtime.

Definition no_world : World := {| channels := ∅; next_message_id := 1 |}.

Definition store (d : DB) : State := {| db := d; world := no_world; log := [] |}.

Definition entry (contest_id user_id : Z) (system_name : string) : Entry :=
  {| e_contest_id := contest_id; e_user_id := user_id;
     e_system_name := lit system_name; e_entered_at := lit "0" |}.

Definition contest (id : Z) : Contest :=
  {| c_id := id; c_opened_at := lit "0";
     c_winner_user_id := None; c_winner_system := None |}.

(** Contest 1, open, with the given entries. *)
Definition open_contest (es : list Entry) : DB :=
  {| settings := {[ "current_contest_id"%string := lit "1";
                    "contest_open"%string := lit "1";
                    "winner_picked"%string := lit "0" ]};
     contest_entries := es;
     contests := [contest 1];
     contests_seq := 1 |}.

Example enter_tama :
  (enter 0 7 (lit "tama ") (store (open_contest []))).1
  = Ok (EntryRecorded (lit "Tama")).
Proof. vm_compute. reflexivity. Qed.

Ltac by_run := vm_compute; reflexivity.

(** A name typed with U+212A KELVIN SIGN is accepted: [str.title()] lowers
    the sign to "k". *)
Example enter_kelvin_sign :
  (enter 0 7 ([97; 8490]%N ++ lit "idagi") (store (open_contest []))).1
  = Ok (EntryRecorded (lit "Akidagi")).
Proof. by_run. Qed.

(** Every name of the allow-list is ASCII and in normal form already. *)
Example allow_list_is_normalized :
  forallb (fun name => is_ascii_str name
                       && bool_decide (normalize_system_name name = name))
          ALLOWED_FOB_SYSTEMS_RAW = true.
Proof. by_run. Qed.

(** *** A contest from the first start to the winner *)

Definition empty_db : DB :=
  {| settings := ∅; contest_entries := []; contests := []; contests_seq := 0 |}.

Definition started : State := (init_db 0 (store empty_db)).2.

Example first_start :
  db started = open_contest [].
Proof. by_run. Qed.

Definition one_guess : State := after (Enter 1 101 (lit "tama ")) started.

Example first_guess_is_stored_normalized :
  contest_entries (db one_guess)
  = [{| e_contest_id := 1; e_user_id := 101;
        e_system_name := lit "Tama"; e_entered_at := lit "1" |}].
Proof. by_run. Qed.

Example second_user_finds_system_taken :
  handle (Enter 2 202 (lit "Tama")) one_guess
  = (Ok (Some (SystemTaken (lit "Tama"))), one_guess).
Proof. by_run. Qed.

Example same_user_cannot_change_guess :
  handle (Enter 2 101 (lit "Vey")) one_guess
  = (Ok (Some (DuplicateUser (lit "Tama"))), one_guess).
Proof. by_run. Qed.

Definition ended : State := after (EndContestSubmit 1 5 (lit "Tama") 0) one_guess.

Example status_reports_the_winner :
  (handle ConteststatusCmd ended).1
  = Ok (Some (ContestStatus 1 (Some (lit "0")) false None 1 (Some (lit "Tama"))
                true (Some 101, Some (lit "Tama")))).
Proof. by_run. Qed.

Example ended_is_reachable : reachable ended.
Proof.
  apply reachable_after, reachable_after.
  apply (reachable_start 0 (store empty_db)). by_run.
Qed.

Example endcontest_needs_an_entry :
  (handle (EndContest true 5) started).1 = Ok (Some NoEntries).
Proof. by_run. Qed.

(** *** /enter *)

Lemma enter_checks_in_order_witness :
  let s := store (open_contest []) in
  is_allowed_fob_system (normalize_system_name (lit "tama ")) = true
  /\ contest_open_flag (db s) = true
  /\ deadline_passed 0 (db s) = Some false
  /\ current_contest_id (db s) = Some 1
  /\ user_entry 1 7 (db s) = None
  /\ system_taken 1 (lit "Tama") (db s) = false
  /\ enter 0 7 (lit "tama ") s
     = (Ok (EntryRecorded (lit "Tama")),
        update_db (with_entries (fun es => es ++ [new_entry 0 1 7 (lit "Tama")])) s).
Proof.
  intros s.
  assert (H1 : is_allowed_fob_system (normalize_system_name (lit "tama ")) = true)
    by by_run.
  assert (H2 : contest_open_flag (db s) = true) by by_run.
  assert (H3 : deadline_passed 0 (db s) = Some false) by by_run.
  assert (H4 : current_contest_id (db s) = Some 1) by by_run.
  assert (H5 : user_entry 1 7 (db s) = None) by by_run.
  assert (H6 : system_taken 1 (lit "Tama") (db s) = false) by by_run.
  repeat (split; [assumption|]).
  destruct (enter_checks_in_order 0 7 (lit "tama ") s) as (_ & _ & _ & _ & _ & H).
  exact (proj2 (H 1 H1 H2 H3 H4 H5 H6)).
Defined.

(** A second bot process has stored user 1's guess "Tama" after the checks
    of user 2's [enter] ran: the write step of user 2 meets the row. *)
Definition raced : State := store (open_contest [entry 1 1 "Tama"]).

Lemma enter_store_violation_is_not_translated :
  (set_user_entry 0 2 (lit "Tama") raced).1 = Raise IntegrityError
  /\ enter_store 0 2 (lit "Tama") raced
     = (Raise IntegrityError,
        add_log (LogException "set_user_entry" IntegrityError) raced)
  /\ (forall r, (enter_store 0 2 (lit "Tama") raced).1 <> Ok r).
Proof.
  assert (E : enter_store 0 2 (lit "Tama") raced
              = (Raise IntegrityError,
                 add_log (LogException "set_user_entry" IntegrityError) raced))
    by by_run.
  split; [by_run|]. split; [exact E|].
  intros r. rewrite E. discriminate.
Qed.

Lemma enter_store_unique_violation_propagates_witness :
  current_contest_id (db raced) = Some 1
  /\ unique_violation (new_entry 0 1 2 (lit "Tama")) (contest_entries (db raced)) = true
  /\ enter_store 0 2 (lit "Tama") raced
     = (Raise IntegrityError,
        add_log (LogException "set_user_entry" IntegrityError) raced)
  /\ unique_violation (new_entry 0 1 2 (lit "Vey")) (contest_entries (db raced)) = false
  /\ exists es, enter_store 0 2 (lit "Vey") raced
                = (Ok (EntryRecorded (lit "Vey")),
                   update_db (with_entries (fun _ => es)) raced).
Proof.
  assert (H1 : current_contest_id (db raced) = Some 1) by by_run.
  assert (H2 : unique_violation (new_entry 0 1 2 (lit "Tama"))
                 (contest_entries (db raced)) = true) by by_run.
  assert (H3 : unique_violation (new_entry 0 1 2 (lit "Vey"))
                 (contest_entries (db raced)) = false) by by_run.
  split; [exact H1|]. split; [exact H2|].
  split.
  { exact (proj1 (proj1 (enter_store_unique_violation_propagates
                           0 2 (lit "Tama") raced 1 H1) H2)). }
  split; [exact H3|].
  destruct (proj2 (enter_store_unique_violation_propagates
                     0 2 (lit "Vey") raced 1 H1) H3) as (es & _ & E).
  exists es. exact E.
Defined.

(** *** /endcontest *)

Definition two_guesses : State :=
  store (open_contest [entry 1 7 "Tama"; entry 1 8 "Vey"]).

Lemma endcontest_with_match_witness :
  endcontest true 5 two_guesses = (Ok (ShowEndContestModal 1 5), two_guesses)
  /\ is_allowed_fob_system (normalize_system_name (lit " tama")) = true
  /\ matching_entries 1 (lit "Tama") (db two_guesses) <> []
  /\ exists prizes s',
       EndContestModal_on_submit 1 5 (lit " tama") 3 two_guesses
       = (Ok (EndedWithWinner 1 (lit "Tama") 7 prizes), s')
       /\ winner_picked_flag (db s') = true
       /\ get_current_winner_info s' = (Ok (Some 7, Some (lit "Tama")), s').
Proof.
  assert (H1 : endcontest true 5 two_guesses
               = (Ok (ShowEndContestModal 1 5), two_guesses)) by by_run.
  assert (H2 : is_allowed_fob_system (normalize_system_name (lit " tama")) = true)
    by by_run.
  assert (H3 : matching_entries 1 (normalize_system_name (lit " tama"))
                 (db two_guesses) <> []) by (vm_compute; discriminate).
  split; [exact H1|]. split; [exact H2|]. split; [exact H3|].
  destruct (proj1 (endcontest_with_match 5 (lit " tama") 3 two_guesses 1 H1 H2 H3))
    as (winner & prizes & Hw & _ & _ & Hrun & _ & _ & Hp & _ & _ & _ & Hinfo).
  vm_compute in Hw. injection Hw as <-.
  exists prizes. eexists. split; [exact Hrun|]. split; [exact Hp|].
  apply Hinfo. exists (contest 1). split; [apply list_elem_of_here|reflexivity].
Defined.

Definition one_wrong_guess : State := store (open_contest [entry 1 8 "Vey"]).

Lemma endcontest_without_match_witness :
  endcontest true 5 one_wrong_guess = (Ok (ShowEndContestModal 1 5), one_wrong_guess)
  /\ is_allowed_fob_system (normalize_system_name (lit "tama")) = true
  /\ matching_entries 1 (lit "Tama") (db one_wrong_guess) = []
  /\ EndContestModal_on_submit 1 5 (lit "tama") 0 one_wrong_guess
     = (Ok (EndedNoWinner 1 (lit "Tama")), closed_with (lit "Tama") one_wrong_guess)
  /\ winner_picked_flag (db (closed_with (lit "Tama") one_wrong_guess)) = false.
Proof.
  assert (H1 : endcontest true 5 one_wrong_guess
               = (Ok (ShowEndContestModal 1 5), one_wrong_guess)) by by_run.
  assert (H2 : is_allowed_fob_system (normalize_system_name (lit "tama")) = true)
    by by_run.
  assert (H3 : matching_entries 1 (normalize_system_name (lit "tama"))
                 (db one_wrong_guess) = []) by by_run.
  split; [exact H1|]. split; [exact H2|]. split; [exact H3|].
  destruct (endcontest_without_match 5 (lit "tama") 0 one_wrong_guess 1 H1 H2 H3)
    as (Hrun & _ & _ & Hp & _).
  split; [exact Hrun|exact Hp].
Defined.

(** *** /newcontest, /opencontest, /listentries *)

Lemma newcontest_starts_fresh_contest_witness :
  py_int (py_str (next_contest_id (db two_guesses))) = Some 2
  /\ current_contest_id (db (update_db (fresh_contest_db 50) two_guesses)) = Some 2.
Proof.
  assert (H : py_int (py_str (next_contest_id (db two_guesses)))
              = Some (next_contest_id (db two_guesses))) by by_run.
  split; [exact H|].
  destruct (newcontest_starts_fresh_contest 50 5 two_guesses)
    as (_ & _ & _ & _ & Hcur & _).
  exact (Hcur H).
Defined.

(** Contest 1 closed by hand, one guess stored, no winner. *)
Definition closed_contest : State :=
  store (upsert_setting "contest_open" (lit "0") (open_contest [entry 1 7 "Tama"])).

Lemma opencontest_flips_open_flag_only_witness :
  winner_picked_flag (db closed_contest) = false
  /\ contest_open_flag (db closed_contest) = false
  /\ opencontest true closed_contest
     = (Ok Reopened, update_db (upsert_setting "contest_open" (lit "1")) closed_contest).
Proof.
  assert (H1 : winner_picked_flag (db closed_contest) = false) by by_run.
  assert (H2 : contest_open_flag (db closed_contest) = false) by by_run.
  split; [exact H1|]. split; [exact H2|].
  exact (proj1 (opencontest_flips_open_flag_only closed_contest H1 H2)).
Defined.

Lemma listentries_closed_refuses_witness :
  contest_open_flag (db closed_contest) = false
  /\ contest_entries (db closed_contest) <> []
  /\ listentries true closed_contest = (Ok ListClosed, closed_contest).
Proof.
  assert (H : contest_open_flag (db closed_contest) = false) by by_run.
  split; [exact H|]. split; [discriminate|].
  exact (proj1 (proj1 (listentries_closed_refuses closed_contest) H)).
Defined.

(** *** The deadline *)

(** Contest 1 still open, its deadline (100) behind the clock (200). *)
Definition past_deadline : State :=
  store (upsert_setting "entry_deadline" (lit "100") (open_contest [])).

Lemma deadline_is_a_soft_close_witness :
  deadline_passed 200 (db past_deadline) = Some true
  /\ is_allowed_fob_system (normalize_system_name (lit "Tama")) = true
  /\ contest_open_flag (db past_deadline) = true
  /\ exists ts, enter 200 7 (lit "Tama") past_deadline
                = (Ok (DeadlinePassed ts), past_deadline).
Proof.
  assert (H1 : deadline_passed 200 (db past_deadline) = Some true) by by_run.
  assert (H2 : is_allowed_fob_system (normalize_system_name (lit "Tama")) = true)
    by by_run.
  assert (H3 : contest_open_flag (db past_deadline) = true) by by_run.
  split; [exact H1|]. split; [exact H2|]. split; [exact H3|].
  exact (proj2 (proj1 deadline_is_a_soft_close 200 7 (lit "Tama") past_deadline H1)
           H2 H3).
Defined.

(** The countdown message 5 is tracked; channel 1000 is where it was
    posted. *)
Definition tracking (msgs : gmap Z Embed) : State :=
  {| db := upsert_setting "countdown_message_id" (lit "5")
             (upsert_setting "entry_deadline" (lit "100") (open_contest []));
     world := {| channels := {[ 1000 := msgs ]}; next_message_id := 6 |};
     log := [] |}.

(** The tracked message was deleted in the channel: the run after the
    deadline edits nothing and the tracked id stays in the store. *)
Lemma countdown_tick_keeps_id_of_deleted_message :
  let s := tracking ∅ in
  let s' := (update_countdown 200 s).2 in
  settings (db s) !! "countdown_message_id" = Some (lit "5")
  /\ deadline_passed 200 (db s) = Some true
  /\ settings (db s') !! "countdown_message_id" = Some (lit "5")
  /\ world s' = world s
  /\ log s' = [LogWarning "update_countdown" NotFound].
Proof. repeat split; by_run. Qed.

Lemma countdown_tick_after_deadline_witness :
  let s := tracking {[ 5 := CountdownEmbed 1 0 0 1 0 ]} in
  let s' := (update_countdown 200 s).2 in
  truthy_str (settings (db s) !! "entry_deadline") = Some (lit "100")
  /\ fromisoformat (lit "100") = Some 100
  /\ 100 <= 200
  /\ stored_int "countdown_channel_id" (db s) = Some None
  /\ countdown_channel None (world s) = Some (1000, {[ 5 := CountdownEmbed 1 0 0 1 0 ]})
  /\ stored_int "countdown_message_id" (db s) = Some (Some 5)
  /\ s' = deadline_reached 1000 5 s
  /\ settings (db s') !! "countdown_message_id" = None.
Proof.
  intros s s'.
  assert (H1 : truthy_str (settings (db s) !! "entry_deadline") = Some (lit "100"))
    by by_run.
  assert (H2 : fromisoformat (lit "100") = Some 100) by by_run.
  assert (H3 : 100 <= 200) by lia.
  assert (H4 : stored_int "countdown_channel_id" (db s) = Some None) by by_run.
  assert (H5 : countdown_channel None (world s)
               = Some (1000, {[ 5 := CountdownEmbed 1 0 0 1 0 ]})) by by_run.
  assert (H6 : stored_int "countdown_message_id" (db s) = Some (Some 5)) by by_run.
  repeat (split; [assumption|]).
  destruct (countdown_tick_after_deadline 200 s (lit "100") 100 H1 H2 H3)
    as (_ & _ & _ & _ & _ & H).
  destruct (H None 1000 _ 5 H4 H5 H6 ltac:(discriminate)) as [Hedit _].
  destruct (Hedit (CountdownEmbed 1 0 0 1 0) eq_refl) as (E & _ & Hgone & _).
  split; [exact E|exact Hgone].
Defined.

End Examples.
